(** * FilesValidator: the validation orchestration of demisto_sdk

    A shallow embedding of [demisto_sdk/validation/file_validator.py].
    Python strings are byte strings ([string]); sets are [gset]; the object
    state that a run mutates ([self._is_valid]) and everything the run does
    to the outside (console output, git commands, validator calls) is
    threaded through a small state-and-exception monad. *)

From Stdlib Require Import String Ascii List Bool ZArith Lia.
From stdpp Require Import base decidable countable gmap sets list strings.

Local Open Scope string_scope.
Local Open Scope list_scope.

(** ** Python string primitives used by the validator *)

Module PyStr.

(** [str.lower] on the ASCII range. *)
Definition lower_ascii (c : ascii) : ascii :=
  let n := nat_of_ascii c in
  if (65 <=? n)%nat && (n <=? 90)%nat then ascii_of_nat (n + 32) else c.

Fixpoint lower (s : string) : string :=
  match s with
  | EmptyString => EmptyString
  | String c r => String (lower_ascii c) (lower r)
  end.

(** [s.startswith(p)] *)
Fixpoint startswith (s p : string) : bool :=
  match p, s with
  | EmptyString, _ => true
  | String _ _, EmptyString => false
  | String a p', String b s' => if Ascii.eqb a b then startswith s' p' else false
  end.

Fixpoint rev_acc (s acc : string) : string :=
  match s with
  | EmptyString => acc
  | String c r => rev_acc r (String c acc)
  end.

Definition rev (s : string) : string := rev_acc s EmptyString.

(** [s.endswith(p)] *)
Definition endswith (s p : string) : bool := startswith (rev s) (rev p).

(** [sub in s] *)
Fixpoint contains (sub s : string) : bool :=
  if startswith s sub then true
  else match s with
       | EmptyString => false
       | String _ r => contains sub r
       end.

(** [s.split(sep)] for a one-character separator: empty pieces are kept
    and the result is never empty. *)
Fixpoint split_on (sep : ascii) (s : string) : list string :=
  match s with
  | EmptyString => [EmptyString]
  | String c r =>
      if Ascii.eqb c sep then EmptyString :: split_on sep r
      else match split_on sep r with
           | [] => [String c EmptyString]
           | h :: t => String c h :: t
           end
  end.

(** The characters [str.split()] treats as white space, in the ASCII range:
    a string is modelled as its bytes, and the model of [split] is that of
    the code on every line whose white space is ASCII (git separates the
    columns of [--name-status] with tabs and the records with newlines). *)
Definition is_space (c : ascii) : bool :=
  let n := nat_of_ascii c in
  ((9 <=? n)%nat && (n <=? 13)%nat) || ((28 <=? n)%nat && (n <=? 32)%nat).

(** [s.split()]: runs of white space separate the pieces, no piece is
    empty.  [cur] is the piece being read, reversed. *)
Fixpoint split_ws_aux (s cur : string) : list string :=
  match s with
  | EmptyString =>
      match cur with EmptyString => [] | _ => [rev cur] end
  | String c r =>
      if is_space c then
        match cur with
        | EmptyString => split_ws_aux r EmptyString
        | _ => rev cur :: split_ws_aux r EmptyString
        end
      else split_ws_aux r (String c cur)
  end.

Definition split_ws (s : string) : list string := split_ws_aux s EmptyString.

(** [s.rfind(c)], [-1] when [c] does not occur. *)
Fixpoint rfind_from (c : ascii) (s : string) (i : Z) (found : Z) : Z :=
  match s with
  | EmptyString => found
  | String a r => rfind_from c r (i + 1) (if Ascii.eqb a c then i else found)
  end.

Definition rfind (c : ascii) (s : string) : Z := rfind_from c s 0 (-1).

Definition slice_to (s : string) (n : Z) : string :=
  substring 0 (Z.to_nat n) s.

Definition slice_from (s : string) (n : Z) : string :=
  substring (Z.to_nat n) (String.length s - Z.to_nat n) s.

(** The [while] loop of [genericpath._splitext]: is there a character other
    than the dot in [p[i : i + n]]? *)
Fixpoint has_non_dot (p : string) (i : nat) (n : nat) : bool :=
  match n with
  | O => false
  | S n' =>
      match String.get i p with
      | Some c => if Ascii.eqb c "." then has_non_dot p (S i) n' else true
      | None => true
      end
  end.

(** [os.path.splitext] (posix): the extension starts at the last dot of the
    last path component, leading dots of that component not counted. *)
Definition splitext (p : string) : string * string :=
  let sepIndex := rfind "/" p in
  let dotIndex := rfind "." p in
  if (sepIndex <? dotIndex)%Z then
    if has_non_dot p (Z.to_nat (sepIndex + 1)) (Z.to_nat (dotIndex - (sepIndex + 1)))
    then (slice_to p dotIndex, slice_from p dotIndex)
    else (p, EmptyString)
  else (p, EmptyString).

(** [sep.join(l)] *)
Fixpoint join (sep : string) (l : list string) : string :=
  match l with
  | [] => EmptyString
  | [x] => x
  | x :: r => x +:+ sep +:+ join sep r
  end.

(** First piece of [s.split(sep)] for a separator string: the part of [s]
    before the first occurrence of [sep]. *)
Fixpoint before_first (sep s : string) : string :=
  if startswith s sep then EmptyString
  else match s with
       | EmptyString => EmptyString
       | String c r => String c (before_first sep r)
       end.

(** [s.rstrip('/')] *)
Fixpoint lstrip_slash (s : string) : string :=
  match s with
  | String "/" r => lstrip_slash r
  | _ => s
  end.

Definition rstrip_slash (s : string) : string := rev (lstrip_slash (rev s)).

(** [os.path.dirname] (posix) *)
Definition dirname (p : string) : string :=
  let head := slice_to p (rfind "/" p + 1) in
  match rstrip_slash head with
  | EmptyString => head          (* empty, or nothing but slashes *)
  | stripped => stripped
  end.

(** [os.path.join(a, b)] (posix) *)
Definition path_join (a b : string) : string :=
  if startswith b "/" then b
  else if String.eqb a "" || endswith a "/" then a +:+ b
  else a +:+ "/" +:+ b.

(** Truth value of a string: empty is false. *)
Definition truthy (s : string) : bool := negb (String.eqb s "").

End PyStr.

(** ** Data model *)

(** An element of the modified set: a path, or the [(old_path, new_path)]
    tuple of a rename. *)
Inductive entry :=
| EPath (p : string)
| ERenamed (old_path new_path : string).

#[global] Instance entry_eq_dec : EqDecision entry.
Proof. solve_decision. Defined.

#[global] Instance entry_countable : Countable entry.
Proof.
  refine (inj_countable'
            (fun e => match e with
                      | EPath p => inl p
                      | ERenamed a b => inr (a, b)
                      end)
            (fun x => match x with
                      | inl p => EPath p
                      | inr (a, b) => ERenamed a b
                      end) _).
  by intros [].
Defined.

(** The path a modified-set element is validated under ([_, f = f] for a
    tuple). *)
Definition entry_path (e : entry) : string :=
  match e with
  | EPath p => p
  | ERenamed _ new_path => new_path
  end.

(** A loaded YAML document, as far as the validator looks into it. *)
#[warnings="-register-all"]
Inductive yaml :=
| YStr (s : string)
| YDict (d : list (string * yaml))
| YOther.

(** [key in d] and [d.get(key, default)] on a document. *)
Fixpoint dict_get (d : list (string * yaml)) (key : string) : option yaml :=
  match d with
  | [] => None
  | (k, v) :: r => if String.eqb k key then Some v else dict_get r key
  end.

Definition dict_has (d : list (string * yaml)) (key : string) : bool :=
  match dict_get d key with Some _ => true | None => false end.

(** The four sets [get_modified_files] builds. *)
Record file_sets := FileSets {
  modified_files_list : gset entry;
  added_files_list : gset string;
  deleted_files : gset string;
  old_format_files : gset string
}.

Definition no_files : file_sets := FileSets ∅ ∅ ∅ ∅.

(** The checks of the type-specific validators (the classes imported from
    [common.hook_validations]); each is run on a validator built from these
    constructor arguments. *)
Inductive check :=
| StructureIsFileValid | StructureIsValidScheme
| IdSetIsFileValidInSet | IdSetIsFileHasUsedId
| ImageIsValid
| DescriptionIsValid | DescriptionIsValidBeta
| IntegrationIsBackwardCompatible | IntegrationIsValid | IntegrationIsValidBeta
| ScriptIsBackwardCompatible | ScriptIsValid
| IncidentFieldIsValid | IncidentFieldIsBackwardCompatible
| ConfJsonIsValid | ConfJsonIsTestInConf.

#[global] Instance check_eq_dec : EqDecision check.
Proof. solve_decision. Defined.

Record check_args := CheckArgs {
  ca_path : string;
  ca_old_file_path : option string;
  ca_old_git_branch : option string;
  ca_use_git : bool;
  ca_is_added_file : bool;
  ca_is_renamed : bool;
  ca_is_new : bool
}.

Definition args_of (path : string) : check_args :=
  CheckArgs path None None false false false false.

(** Everything a run does to the outside world, in order. *)
Inductive event :=
| EvPrint (msg : string)
| EvPrintWarning (msg : string)
| EvPrintError (msg : string)
| EvPrintColor (msg : string)
| EvRunCommand (cmd : string)
| EvGetYaml (path : string)
| EvWalk (directory : string)
| EvGlob (pattern : string)
| EvUnifier (directory : string)
| EvCheck (c : check) (a : check_args)
| EvSetValid (b : bool).

Inductive exn := IndexError | AttributeError.

(** What the validator imports and does not define itself: the pattern
    tables of [common.constants], the helpers of [common.tools], the regular
    expression engine, git, the file system and the validator classes. *)
Record Env := {
  CODE_FILES_REGEX : list string;
  OLD_YML_FORMAT_FILE : list string;
  CHECKED_TYPES_REGEXES : list string;
  IGNORED_TYPES_REGEXES : list string;
  KNOWN_FILE_STATUSES : list string;
  DIR_LIST : list string;
  PACKAGE_SUPPORTING_DIRECTORIES : list string;
  SCHEMA_REGEX : string;
  INTEGRATION_REGEX : string;
  INTEGRATION_YML_REGEX : string;
  BETA_INTEGRATION_REGEX : string;
  BETA_INTEGRATION_YML_REGEX : string;
  SCRIPT_REGEX : string;
  SCRIPT_YML_REGEX : string;
  SCRIPT_PY_REGEX : string;
  SCRIPT_JS_REGEX : string;
  IMAGE_REGEX : string;
  INCIDENT_FIELD_REGEX : string;
  TEST_PLAYBOOK_REGEX : string;
  (** [re.match(regex, s, re.IGNORECASE)], as a truth value *)
  re_match : string -> string -> bool;
  (** [re.search(regex, s)]: the first group of the first match *)
  re_search_group1 : string -> string -> option string;
  (** [checked_type(file_path, compared_regexes=None)] *)
  checked_type : string -> option (list string) -> bool;
  (** [get_yaml(file_path)] *)
  get_yaml : string -> list (string * yaml);
  (** [filter_packagify_changes(modified, added, removed, tag)] *)
  filter_packagify_changes :
    gset entry -> gset string -> gset string -> string ->
    gset entry * gset string * gset string;
  (** [collect_ids(file_path)] *)
  collect_ids : string -> string;
  (** [run_command(cmd)]: the command's standard output *)
  run_command : string -> string;
  (** [os.walk(directory)] *)
  os_walk : string -> list (string * list string * list string);
  (** [glob.glob(pattern)] *)
  glob : string -> list string;
  (** [Unifier(directory).get_script_package_data()[0]] *)
  unifier_yml_path : string -> string;
  (** the verdict of one validator check *)
  run_check : check -> check_args -> bool
}.

(** ** The state-and-exception monad *)

Record world := World {
  is_valid : bool;          (* self._is_valid *)
  trace : list event
}.

Inductive result (A : Type) :=
| Ok (a : A) (w : world)
| Raise (e : exn) (w : world).
Arguments Ok {A} a w.
Arguments Raise {A} e w.

Definition M (A : Type) : Type := world -> result A.

Definition ret {A} (a : A) : M A := fun w => Ok a w.

Definition bind {A B} (m : M A) (k : A -> M B) : M B :=
  fun w => match m w with
           | Ok a w' => k a w'
           | Raise e w' => Raise e w'
           end.

Definition raise {A} (e : exn) : M A := fun w => Raise e w.

Notation "x <- m ;; k" := (bind m (fun x => k))
  (at level 100, m at next level, right associativity).
Notation "m ;;; k" := (bind m (fun _ => k))
  (at level 100, right associativity).

Definition emit (ev : event) : M unit :=
  fun w => Ok tt (World (is_valid w) (trace w ++ [ev])).

(** [self._is_valid = b] *)
Definition set_valid (b : bool) : M unit :=
  fun w => Ok tt (World b (trace w ++ [EvSetValid b])).

Definition get_valid : M bool := fun w => Ok (is_valid w) w.

(** [if not ok: self._is_valid = False] *)
Definition fail_unless (ok : bool) : M unit :=
  if ok then ret tt else set_valid false.

Definition final_world {A} (r : result A) : world :=
  match r with Ok _ w => w | Raise _ w => w end.

(** [for x in l: body(x)] *)
Fixpoint for_each {A} (l : list A) (body : A -> M unit) : M unit :=
  match l with
  | [] => ret tt
  | x :: r => body x ;;; for_each r body
  end.

(** A loop that carries an accumulator. *)
Fixpoint fold_each {A S} (l : list A) (body : S -> A -> M S) (acc : S) : M S :=
  match l with
  | [] => ret acc
  | x :: r => acc' <- body acc x ;; fold_each r body acc'
  end.

(** [l[i]] *)
Definition py_index (l : list string) (i : nat) : M string :=
  match nth_error l i with
  | Some x => ret x
  | None => raise IndexError
  end.

Definition print (msg : string) : M unit := emit (EvPrint msg).
Definition print_warning (msg : string) : M unit := emit (EvPrintWarning msg).
Definition print_error (msg : string) : M unit := emit (EvPrintError msg).
Definition print_color (msg : string) : M unit := emit (EvPrintColor msg).

(** A validator check: the call is recorded, the oracle gives its verdict. *)
Definition call_check (E : Env) (c : check) (a : check_args) : M bool :=
  emit (EvCheck c a) ;;; ret (run_check E c a).

Definition str_in (s : string) (l : list string) : bool :=
  existsb (String.eqb s) l.

(** ** The validator object *)

(** The attributes [__init__] sets and no method changes afterwards;
    [_is_valid] lives in the [world]. *)
Record files_validator := FilesValidator {
  branch_name : string;
  use_git : bool;
  prev_ver : string;
  is_backward_check : bool;
  is_circle : bool;
  print_ignored_files : bool;
  validate_conf_json : bool;
  validate_id_set : bool
}.

(** The pattern [__init__] reads the current branch with: a star, a space
    and a group taking the rest of the line. *)
Definition branch_name_regex : string := "\* (.*" +:+ ")".

Definition tab : string := String "009" "".
Definition newline : string := String "010" "".

Definition add_modified (e : entry) (acc : file_sets) : file_sets :=
  FileSets ({[e]} ∪ modified_files_list acc) (added_files_list acc)
           (deleted_files acc) (old_format_files acc).

Definition add_added (p : string) (acc : file_sets) : file_sets :=
  FileSets (modified_files_list acc) ({[p]} ∪ added_files_list acc)
           (deleted_files acc) (old_format_files acc).

Definition add_deleted (p : string) (acc : file_sets) : file_sets :=
  FileSets (modified_files_list acc) (added_files_list acc)
           ({[p]} ∪ deleted_files acc) (old_format_files acc).

Definition add_old_format (p : string) (acc : file_sets) : file_sets :=
  FileSets (modified_files_list acc) (added_files_list acc)
           (deleted_files acc) ({[p]} ∪ old_format_files acc).

Section Validator.

Context (E : Env).

Definition run_cmd (cmd : string) : M string :=
  emit (EvRunCommand cmd) ;;; ret (run_command E cmd).

Definition load_yaml (path : string) : M (list (string * yaml)) :=
  emit (EvGetYaml path) ;;; ret (get_yaml E path).

(** [FilesValidator.__init__]; [prev_ver] is [None] when not given on the
    command line.  The [ConfJsonValidator] and [IDSetValidator] objects it
    builds are not state of their own here: their checks are answered by
    [run_check]. *)
Definition init (is_backward_check : bool) (prev_ver : option string)
    (use_git is_circle print_ignored_files validate_conf_json validate_id_set : bool)
  : M files_validator :=
  branch_name <-
    (if use_git then
       branches <- run_cmd "git branch" ;;
       match re_search_group1 E branch_name_regex branches with
       | Some g => ret g
       | None => raise AttributeError
       end
     else ret "") ;;
  let prev_ver :=
    match prev_ver with
    | Some v => if PyStr.truthy v then v else "origin/master"
    | None => "origin/master"
    end in
  set_valid true ;;;
  ret (FilesValidator branch_name use_git prev_ver is_backward_check is_circle
         print_ignored_files validate_conf_json validate_id_set).

(** [FilesValidator()] with every argument at its default. *)
Definition init_default : M files_validator :=
  init true (Some "origin/master") true false false true false.

Definition _is_py_script_or_integration (file_path : string) : M bool :=
  file_yml <- load_yaml file_path ;;
  if re_match E (INTEGRATION_REGEX E) file_path then
    match dict_get file_yml "script" with
    | None => ret false
    | Some (YDict script) =>
        match dict_get script "type" with
        | Some (YStr t) => ret (String.eqb t "python")
        | _ => ret false
        end
    | Some _ => raise AttributeError
    end
  else if re_match E (SCRIPT_REGEX E) file_path then
    match dict_get file_yml "type" with
    | Some (YStr t) => ret (String.eqb t "python")
    | _ => ret false
    end
  else ret false.

(** Lines 107-131 of [get_modified_files]: the cascade that puts one diff
    record into a set. *)
Definition route_record (print_ignored : bool) (acc : file_sets)
    (file_data : list string) (file_status file_path : string) : M file_sets :=
  let st := PyStr.lower file_status in
  is_old <-
    (if str_in st ["m"; "a"; "r"]
        && checked_type E file_path (Some (OLD_YML_FORMAT_FILE E))
     then _is_py_script_or_integration file_path
     else ret false) ;;
  if is_old then ret (add_old_format file_path acc)
  else if String.eqb st "m" && checked_type E file_path None
          && negb (PyStr.startswith file_path ".")
  then ret (add_modified (EPath file_path) acc)
  else if String.eqb st "a" && checked_type E file_path None
          && negb (PyStr.startswith file_path ".")
  then ret (add_added file_path acc)
  else if String.eqb st "d" && checked_type E file_path None
          && negb (PyStr.startswith file_path ".")
  then ret (add_deleted file_path acc)
  else if PyStr.startswith st "r" && checked_type E file_path None
  then
    new_path <- py_index file_data 2 ;;
    if checked_type E new_path (Some (CODE_FILES_REGEX E))
    then ret (add_modified (EPath file_path) acc)
    else
      old_path <- py_index file_data 1 ;;
      ret (add_modified (ERenamed old_path new_path) acc)
  else if checked_type E file_path (Some [SCHEMA_REGEX E])
  then ret (add_modified (EPath file_path) acc)
  else if negb (str_in st (KNOWN_FILE_STATUSES E))
  then
    print_error (file_path +:+ " file status is an unknown known one, please check. File status was: "
                 +:+ file_status) ;;;
    ret acc
  else if print_ignored && negb (checked_type E file_path (Some (IGNORED_TYPES_REGEXES E)))
  then print_warning ("Ignoring file path: " +:+ file_path) ;;; ret acc
  else ret acc.

(** Lines 89-105: one iteration of the loop over the diff lines. *)
Definition classify_record (print_ignored : bool) (acc : file_sets) (f : string)
  : M file_sets :=
  let file_data := PyStr.split_ws f in
  match file_data with
  | [] => ret acc
  | _ =>
      file_status <- py_index file_data 0 ;;
      file_path <- py_index file_data 1 ;;
      sp <- (if PyStr.startswith (PyStr.lower file_status) "r"
             then new_path <- py_index file_data 2 ;; ret ("r", new_path)
             else ret (file_status, file_path)) ;;
      let file_status := fst sp in
      let file_path := snd sp in
      if checked_type E file_path (Some (CODE_FILES_REGEX E))
         && negb (String.eqb (PyStr.lower file_status) "d")
         && negb (PyStr.endswith file_path "_test.py")
      then route_record print_ignored acc file_data file_status
             (fst (PyStr.splitext file_path) +:+ ".yml")
      else if PyStr.endswith file_path ".js" || PyStr.endswith file_path ".py"
      then ret acc
      else route_record print_ignored acc file_data file_status file_path
  end.

(** The loop of [get_modified_files], before [filter_packagify_changes]. *)
Definition classify_diff (files_string : string) (print_ignored : bool) : M file_sets :=
  fold_each (PyStr.split_on "010" files_string) (classify_record print_ignored) no_files.

Definition get_modified_files (files_string tag : string) (print_ignored : bool)
  : M (gset entry * gset string * gset string * gset string) :=
  acc <- classify_diff files_string print_ignored ;;
  let '(modified, added, deleted) :=
    filter_packagify_changes E (modified_files_list acc) (added_files_list acc)
      (deleted_files acc) tag in
  ret (modified, added, deleted, old_format_files acc).

Definition get_modified_and_added_files (self : files_validator) (tag : string)
  : M (gset entry * gset string * gset string) :=
  let compare_type := if PyStr.contains "master" tag then "." else "" in
  all_changed_files_string <-
    run_cmd ("git diff --name-status " +:+ tag +:+ ".." +:+ compare_type
             +:+ "refs/heads/" +:+ branch_name self) ;;
  r <- get_modified_files all_changed_files_string tag (print_ignored_files self) ;;
  let '(modified_files, added_files, _, old_format_files) := r in
  if negb (is_circle self) then
    files_string <- run_cmd "git diff --name-status --no-merges HEAD" ;;
    nc <- get_modified_files files_string "master" (print_ignored_files self) ;;
    let '(non_committed_modified_files, non_committed_added_files,
          non_committed_deleted_files, non_committed_old_format_files) := nc in
    all_changed_files_string <- run_cmd ("git diff --name-status " +:+ tag) ;;
    ft <- get_modified_files all_changed_files_string "master" (print_ignored_files self) ;;
    let '(modified_files_from_tag, added_files_from_tag, _, _) := ft in
    let old_format_files := old_format_files ∪ non_committed_old_format_files in
    let modified_files :=
      modified_files ∪ (modified_files_from_tag ∩ non_committed_modified_files) in
    let added_files :=
      added_files ∪ (added_files_from_tag ∩ non_committed_added_files) in
    let modified_files := modified_files ∖ set_map EPath non_committed_deleted_files in
    let added_files :=
      filter (fun p => EPath p ∉ non_committed_modified_files) added_files
        ∖ non_committed_deleted_files in
    ret (modified_files, added_files, old_format_files)
  else ret (modified_files, added_files, old_format_files).

Definition structure_args (path : string) (use_git is_added_file is_renamed : bool)
  : check_args :=
  CheckArgs path None None use_git is_added_file is_renamed false.

Definition versioned_args (path : string) (old_file_path old_git_branch : option string)
  : check_args :=
  CheckArgs path old_file_path old_git_branch false false false false.

Definition new_args (path : string) : check_args :=
  CheckArgs path None None false false false true.

(** [if not validator.check(): self._is_valid = False] *)
Definition require (c : check) (a : check_args) : M unit :=
  ok <- call_check E c a ;; fail_unless ok.

(** [if self.is_backward_check and not validator.is_backward_compatible(): ...];
    the check is not called when the flag is off. *)
Definition require_backward (self : files_validator) (c : check) (a : check_args) : M unit :=
  if is_backward_check self then require c a else ret tt.

(** The body of the loop of [validate_modified_files]. *)
Definition validate_modified_file (self : files_validator) (e : entry) : M unit :=
  let old_file_path :=
    match e with ERenamed old _ => Some old | EPath _ => None end in
  let file_path := entry_path e in
  print ("Validating " +:+ file_path) ;;;
  if negb (checked_type E file_path None) then
    print_warning "- Skipping validation of non-content entity file."
  else
    require StructureIsFileValid
      (structure_args file_path (use_git self)
         (PyStr.truthy (branch_name self) && negb (false || is_backward_check self))
         (PyStr.truthy (branch_name self)
          && match old_file_path with Some _ => true | None => false end)) ;;;
    if validate_id_set self then
      require IdSetIsFileValidInSet (args_of file_path)
    else if re_match E (INTEGRATION_REGEX E) file_path
            || re_match E (INTEGRATION_YML_REGEX E) file_path then
      require ImageIsValid (args_of file_path) ;;;
      require DescriptionIsValid (args_of file_path) ;;;
      let a := versioned_args file_path old_file_path (Some (prev_ver self)) in
      require_backward self IntegrationIsBackwardCompatible a ;;;
      require IntegrationIsValid a
    else if re_match E (BETA_INTEGRATION_REGEX E) file_path
            || re_match E (BETA_INTEGRATION_YML_REGEX E) file_path then
      require DescriptionIsValidBeta (args_of file_path) ;;;
      require IntegrationIsValidBeta (versioned_args file_path old_file_path None)
    else if re_match E (SCRIPT_REGEX E) file_path then
      let a := versioned_args file_path old_file_path (Some (prev_ver self)) in
      require_backward self ScriptIsBackwardCompatible a ;;;
      require ScriptIsValid a
    else if re_match E (SCRIPT_YML_REGEX E) file_path
            || re_match E (SCRIPT_PY_REGEX E) file_path
            || re_match E (SCRIPT_JS_REGEX E) file_path then
      emit (EvUnifier (PyStr.dirname file_path)) ;;;
      let yml_path := unifier_yml_path E (PyStr.dirname file_path) in
      require_backward self ScriptIsBackwardCompatible
        (versioned_args yml_path old_file_path (Some (prev_ver self)))
    else if re_match E (IMAGE_REGEX E) file_path then
      require ImageIsValid (args_of file_path)
    else if re_match E (INCIDENT_FIELD_REGEX E) file_path then
      let a := versioned_args file_path old_file_path (Some (prev_ver self)) in
      require IncidentFieldIsValid a ;;;
      require_backward self IncidentFieldIsBackwardCompatible a
    else ret tt.

Definition validate_modified_files (self : files_validator) (modified_files : gset entry)
  : M unit :=
  for_each (elements modified_files) (validate_modified_file self).

(** The body of the loop of [validate_added_files]. *)
Definition validate_added_file (self : files_validator) (file_path : string) : M unit :=
  print ("Validating " +:+ file_path) ;;;
  require StructureIsFileValid (structure_args file_path (use_git self) true false) ;;;
  (if validate_id_set self then
     require IdSetIsFileValidInSet (args_of file_path) ;;;
     used <- call_check E IdSetIsFileHasUsedId (args_of file_path) ;;
     fail_unless (negb used)
   else ret tt) ;;;
  if re_match E (TEST_PLAYBOOK_REGEX E) file_path then
    if validate_conf_json self then
      require ConfJsonIsTestInConf (args_of (collect_ids E file_path))
    else raise AttributeError     (* no [conf_json_validator] attribute *)
  else if re_match E (INTEGRATION_REGEX E) file_path
          || re_match E (INTEGRATION_YML_REGEX E) file_path
          || re_match E (IMAGE_REGEX E) file_path then
    require ImageIsValid (args_of file_path) ;;;
    require DescriptionIsValid (args_of file_path) ;;;
    require IntegrationIsValid (args_of file_path)
  else if re_match E (BETA_INTEGRATION_REGEX E) file_path
          || re_match E (BETA_INTEGRATION_YML_REGEX E) file_path then
    require DescriptionIsValidBeta (args_of file_path) ;;;
    require IntegrationIsValidBeta (new_args file_path)
  else if re_match E (IMAGE_REGEX E) file_path then
    require ImageIsValid (args_of file_path)
  else if re_match E (INCIDENT_FIELD_REGEX E) file_path then
    require IncidentFieldIsValid (args_of file_path)
  else ret tt.

Definition validate_added_files (self : files_validator) (added_files : gset string)
  : M unit :=
  for_each (elements added_files) (validate_added_file self).

(** The loop of [validate_no_old_format]: collect the files without a
    [toversion] key. *)
Definition old_format_step (invalid_files : list string) (f : string) : M (list string) :=
  yaml_data <- load_yaml f ;;
  if negb (dict_has yaml_data "toversion") then ret (invalid_files ++ [f])%list
  else ret invalid_files.

Definition validate_no_old_format (old_format_files : gset string) : M unit :=
  invalid_files <- fold_each (elements old_format_files) old_format_step [] ;;
  match invalid_files with
  | [] => ret tt
  | _ =>
      print_error
        ("You should update the following files to the package format, for further details please visit "
         +:+ "https://github.com/demisto/content/tree/master/docs/package_directory_structure. "
         +:+ "The files are:" +:+ newline +:+ PyStr.join newline invalid_files) ;;;
      set_valid false
  end.

(** One [(root, dirs, files)] triple of the walk in [validate_all_files]. *)
Definition validate_walked (self : files_validator) (directory : string)
    (triple : string * list string * list string) : M unit :=
  let '(root, dirs, files) := triple in
  if negb (str_in root (DIR_LIST E)) then ret tt
  else
    print_color ("Validating " +:+ directory +:+ " directory:") ;;;
    for_each files (fun file_name =>
      let file_path := PyStr.path_join root file_name in
      if PyStr.startswith file_name "." then ret tt
      else
        print ("Validating " +:+ file_name) ;;;
        require StructureIsValidScheme
          (structure_args file_path (use_git self) false false)) ;;;
    if str_in root (PACKAGE_SUPPORTING_DIRECTORIES E) then
      for_each dirs (fun inner_dir =>
        let pattern := PyStr.path_join (PyStr.path_join root inner_dir) "*.yml" in
        emit (EvGlob pattern) ;;;
        match glob E pattern with
        | [] => raise IndexError
        | file_path :: _ =>
            print ("Validating " +:+ file_path) ;;;
            require StructureIsValidScheme
              (structure_args file_path (use_git self) false false)
        end)
    else ret tt.

Definition validate_all_files (self : files_validator) : M unit :=
  for_each (CHECKED_TYPES_REGEXES E) (fun regex =>
    let directory := PyStr.before_first ".*" regex in
    emit (EvWalk directory) ;;;
    for_each (os_walk E directory) (validate_walked self directory)).

(** The loop of [validate_committed_files] that looks for a schema file. *)
Definition schema_changed_in (modified_files : list entry) : bool :=
  fold_left
    (fun schema_changed f =>
       if checked_type E (entry_path f) (Some [SCHEMA_REGEX E]) then true
       else schema_changed)
    modified_files false.

Definition validate_committed_files (self : files_validator) : M unit :=
  r <- get_modified_and_added_files self "origin/master" ;;
  let '(modified_files, added_files, old_format_files) := r in
  if schema_changed_in (elements modified_files) then validate_all_files self
  else
    validate_modified_files self modified_files ;;;
    validate_added_files self added_files ;;;
    validate_no_old_format old_format_files.

Definition validate_against_previous_version (self : files_validator) (no_error : bool)
  : M unit :=
  if PyStr.truthy (prev_ver self) && negb (String.eqb (prev_ver self) "master") then
    print_color ("Starting validation against " +:+ prev_ver self) ;;;
    r <- get_modified_and_added_files self (prev_ver self) ;;
    let '(modified_files, _, _) := r in
    prev_self_valid <- get_valid ;;
    validate_modified_files self modified_files ;;;
    if no_error then set_valid prev_self_valid else ret tt
  else ret tt.

Definition is_valid_structure (self : files_validator) : M bool :=
  (if validate_conf_json self then require ConfJsonIsValid (args_of "") else ret tt) ;;;
  (if PyStr.truthy (branch_name self) then
     if negb (String.eqb (branch_name self) "master")
        && (negb (PyStr.startswith (branch_name self) "19.")
            && negb (PyStr.startswith (branch_name self) "20."))
     then
       validate_committed_files self ;;;
       validate_against_previous_version self true
     else
       validate_against_previous_version self true ;;;
       validate_all_files self
   else validate_all_files self) ;;;
  get_valid.

End Validator.

(** ** A sample environment

    A small content repository against which the definitions can be run: the
    pattern tables have the shape of those in [common.constants] (a directory,
    [.*], an extension), the validators
    reject every file whose name contains [Bad], and git reports a fixed set
    of changes. *)

Module Sample.

(** The part of [s] after the first occurrence of [sep], if any. *)
Fixpoint after_first (sep s : string) : option string :=
  if PyStr.startswith s sep then
    Some (substring (String.length sep) (String.length s - String.length sep) s)
  else match s with
       | EmptyString => None
       | String _ r => after_first sep r
       end.

(** A matcher for patterns of the shape [literal.*literal], anchored at
    the start of the path as [re.match] is, ignoring case. *)
Definition matches (regex s : string) : bool :=
  let s := PyStr.lower s in
  let regex := PyStr.lower regex in
  match after_first ".*" regex with
  | Some tail => PyStr.startswith s (PyStr.before_first ".*" regex) && PyStr.endswith s tail
  | None => PyStr.startswith s regex
  end.

Definition integration_re := "Integrations/integration-.*.yml".
Definition integration_yml_re := "Integrations/.*.yml".
Definition integration_py_re := "Integrations/.*.py".
Definition integration_js_re := "Integrations/.*.js".
Definition beta_integration_re := "Beta_Integrations/integration-.*.yml".
Definition beta_integration_yml_re := "Beta_Integrations/.*.yml".
Definition script_re := "Scripts/script-.*.yml".
Definition script_yml_re := "Scripts/.*.yml".
Definition script_py_re := "Scripts/.*.py".
Definition script_js_re := "Scripts/.*.js".
Definition image_re := "Integrations/.*.png".
Definition incident_field_re := "IncidentFields/.*.json".
Definition test_playbook_re := "TestPlaybooks/.*.yml".
Definition schema_re := "Tests/schemas/.*.yml".

Definition checked_types : list string :=
  [integration_re; integration_yml_re; beta_integration_re;
   beta_integration_yml_re; script_re; script_yml_re; image_re;
   incident_field_re; test_playbook_re].

Definition is_checked (file_path : string) (compared_regexes : option (list string)) : bool :=
  existsb (fun regex => matches regex file_path)
    (match compared_regexes with
     | Some l => l
     | None => checked_types
     end).

Definition yaml_of (path : string) : list (string * yaml) :=
  ((if PyStr.contains "Py" path
    then [("type", YStr "python"); ("script", YDict [("type", YStr "python")])]
    else [])
   ++ (if PyStr.contains "Capped" path then [("toversion", YStr "4.1.0")] else []))%list.

(** The branch pattern of [__init__]: the rest of the line after the
    first star-and-space. *)
Definition search_group1 (regex s : string) : option string :=
  match after_first "* " s with
  | Some r => Some (PyStr.before_first newline r)
  | None => None
  end.

Definition line (status path : string) : string := status +:+ tab +:+ path.

Definition lines (l : list string) : string := PyStr.join newline l.

(** What git reports, per command. *)
Definition git (cmd : string) : string :=
  if String.eqb cmd "git branch" then "  master" +:+ newline +:+ "* feature"
  else if String.eqb cmd "git diff --name-status origin/master...refs/heads/feature" then
    lines [line "M" "Integrations/Foo/Foo.py";
           line "M" "Scripts/Gone/Gone.yml";
           line "A" "Scripts/New/New.yml";
           line "A" "Scripts/Touched/Touched.yml";
           line "M" "Integrations/integration-PyOld.yml"]
  else if String.eqb cmd "git diff --name-status --no-merges HEAD" then
    lines [line "D" "Scripts/Gone/Gone.yml";
           line "M" "Scripts/Touched/Touched.yml";
           line "M" "Integrations/Local/Local.yml";
           line "A" "IncidentFields/field.json";
           line "M" "Scripts/script-PyCapped.yml"]
  else if String.eqb cmd "git diff --name-status origin/master" then
    lines [line "M" "Integrations/Local/Local.yml";
           line "A" "IncidentFields/field.json";
           line "M" "Integrations/Foo/Foo.py"]
  else if String.eqb cmd "git diff --name-status origin/master...refs/heads/master" then
    lines [line "M" "Integrations/Bad/Bad.yml"]
  else if String.eqb cmd "git diff --name-status origin/master...refs/heads/schema" then
    lines [line "M" "Tests/schemas/integration.yml"]
  else "".

Definition walk (directory : string) : list (string * list string * list string) :=
  if String.eqb directory "Scripts/"
  then [("Scripts", ["Touched"], ["script-PyCapped.yml"; ".gitkeep"])]
  else [].

Definition glob_files (pattern : string) : list string :=
  if String.eqb pattern "Scripts/Touched/*.yml" then ["Scripts/Touched/Touched.yml"] else [].

(** No removed file comes back as an added one, so the packagify filter has
    nothing to pair and hands the sets back. *)
Definition no_packagify (modified : gset entry) (added removed : gset string)
    (tag : string) : gset entry * gset string * gset string :=
  (modified, added, removed).

Definition verdict_of (c : check) (a : check_args) : bool :=
  negb (PyStr.contains "Bad" (ca_path a)).

Definition env : Env := {|
  CODE_FILES_REGEX := [integration_js_re; integration_py_re; script_py_re; script_js_re];
  OLD_YML_FORMAT_FILE := [integration_re; script_re];
  CHECKED_TYPES_REGEXES := checked_types;
  IGNORED_TYPES_REGEXES := ["Misc/.*.md"];
  KNOWN_FILE_STATUSES := ["a"; "m"; "d"; "r"];
  DIR_LIST := ["Integrations"; "Scripts"; "IncidentFields"; "TestPlaybooks"];
  PACKAGE_SUPPORTING_DIRECTORIES := ["Integrations"; "Scripts"];
  SCHEMA_REGEX := schema_re;
  INTEGRATION_REGEX := integration_re;
  INTEGRATION_YML_REGEX := integration_yml_re;
  BETA_INTEGRATION_REGEX := beta_integration_re;
  BETA_INTEGRATION_YML_REGEX := beta_integration_yml_re;
  SCRIPT_REGEX := script_re;
  SCRIPT_YML_REGEX := script_yml_re;
  SCRIPT_PY_REGEX := script_py_re;
  SCRIPT_JS_REGEX := script_js_re;
  IMAGE_REGEX := image_re;
  INCIDENT_FIELD_REGEX := incident_field_re;
  TEST_PLAYBOOK_REGEX := test_playbook_re;
  re_match := matches;
  re_search_group1 := search_group1;
  checked_type := is_checked;
  get_yaml := yaml_of;
  filter_packagify_changes := no_packagify;
  collect_ids := fun p => p;
  run_command := git;
  os_walk := walk;
  glob := glob_files;
  unifier_yml_path := fun d => PyStr.path_join d "unified.yml";
  run_check := verdict_of
|}.

Definition start : world := World true [].

(** A validator on a feature branch, as [FilesValidator()] builds it. *)
Definition on_feature : files_validator :=
  FilesValidator "feature" true "origin/master" true false false true false.

Definition on_master : files_validator :=
  FilesValidator "master" true "origin/master" true true false true false.

Definition on_schema_branch : files_validator :=
  FilesValidator "schema" true "origin/master" true true false true false.

End Sample.

(** ** Runs, traces and verdict histories *)

(** The verdict after the assignments of a trace. *)
Definition replay (b : bool) (tr : list event) : bool :=
  fold_left (fun b ev => match ev with EvSetValid b' => b' | _ => b end) tr b.

Definition finish {A} (o : exn + A) (w : world) : result A :=
  match o with
  | inl e => Raise e w
  | inr a => Ok a w
  end.

(** [m] does the same in every world: it appends [tr], leaves the verdict
    as the assignments in [tr] make it, and ends with outcome [o]. *)
Definition runs {A} (m : M A) (tr : list event) (o : exn + A) : Prop :=
  forall w, m w = finish o (World (replay (is_valid w) tr) (trace w ++ tr)).

Definition outcome_ok {A} (o : exn + A) : bool :=
  match o with inr _ => true | inl _ => false end.

(** [m] runs, emitting only events that satisfy [P]; when [strict], it does
    not end in an exception. *)
Definition pass (strict : bool) (P : event -> bool) {A} (m : M A) : Prop :=
  exists tr o, runs m tr o /\ forallb P tr = true /\ (strict = true -> outcome_ok o = true).

Definition is_assign (ev : event) : bool :=
  match ev with EvSetValid _ => true | _ => false end.

(** Events that are not verdict assignments. *)
Definition no_assign (ev : event) : bool := negb (is_assign ev).

(** Events other than the assignment [self._is_valid = True]. *)
Definition lowering (ev : event) : bool :=
  match ev with EvSetValid true => false | _ => true end.

Definition any_event (ev : event) : bool := true.

(** What the full-repository sweep does: it walks, globs, prints, runs
    [is_valid_scheme] and lowers the verdict. *)
Definition sweep_event (ev : event) : bool :=
  match ev with
  | EvWalk _ | EvGlob _ | EvPrint _ | EvPrintColor _ | EvSetValid false => true
  | EvCheck StructureIsValidScheme _ => true
  | _ => false
  end.

(** The validator checks called in a trace, in order. *)
Definition checks_of (tr : list event) : list (check * check_args) :=
  flat_map (fun ev => match ev with EvCheck c a => [(c, a)] | _ => [] end) tr.

(** Does some assignment in [tr] move the verdict, [b] before [tr], from
    false to true? *)
Fixpoint rises (b : bool) (tr : list event) : bool :=
  match tr with
  | [] => false
  | EvSetValid b' :: r => (negb b && b') || rises b' r
  | _ :: r => rises b r
  end.

(** No path occurs in two of the four sets. *)
Definition pairwise_disjoint
    (r : gset entry * gset string * gset string * gset string) : Prop :=
  let '(modified, added, deleted, old_format) := r in
  modified ## set_map EPath added /\ modified ## set_map EPath deleted
  /\ modified ## set_map EPath old_format
  /\ added ## deleted /\ added ## old_format /\ deleted ## old_format.

Definition sets_of (acc : file_sets) : gset entry * gset string * gset string * gset string :=
  (modified_files_list acc, added_files_list acc, deleted_files acc, old_format_files acc).

(** A hidden path. *)
Definition hidden (p : string) : bool := PyStr.startswith p ".".

(** Would [validate_modified_files] reject this element of the modified
    set? *)
Definition fails_modified_validation (E : Env) (self : files_validator) (e : entry) : bool :=
  negb (is_valid (final_world (validate_modified_file E self e (World true [])))).

(** The trace after a run extends the trace before it. *)
Definition extends {A} (m : M A) : Prop :=
  forall w, exists tr, trace (final_world (m w)) = trace w ++ tr.

(** The events [validate_modified_files] emits for one element. *)
Definition modified_file_trace (E : Env) (self : files_validator) (e : entry) : list event :=
  trace (final_world (validate_modified_file E self e (World true []))).

(** The world after [run_cmd cmd]. *)
Definition after_command (cmd : string) (w : world) : world :=
  World (is_valid w) (trace w ++ [EvRunCommand cmd]).

(** The verdict is never true after [m] unless it was true before. *)
Definition declining {A} (m : M A) : Prop :=
  forall w, is_valid (final_world (m w)) = true -> is_valid w = true.

(** [m] runs the same in every world and none of its assignments moves the
    verdict from false to true. *)
Definition never_rises {A} (m : M A) : Prop :=
  exists tr o, runs m tr o /\ forall b, rises b tr = false.

(** Did the run return, and with what? *)
Definition is_ok {A} (r : result A) : bool :=
  match r with Ok _ _ => true | Raise _ _ => false end.

Definition result_value {A} (d : A) (r : result A) : A :=
  match r with Ok a _ => a | Raise _ _ => d end.

(** What the diff collection does to the outside: it runs git, reads YAML
    documents and prints diagnostics. *)
Definition collection_event (ev : event) : bool :=
  match ev with
  | EvRunCommand _ | EvGetYaml _ | EvPrintError _ | EvPrintWarning _ => true
  | _ => false
  end.

(** What the classification of a diff does to the outside: it reads YAML
    documents and prints diagnostics. *)
Definition classification_event (ev : event) : bool :=
  match ev with
  | EvGetYaml _ | EvPrintError _ | EvPrintWarning _ => true
  | _ => false
  end.

(** Events other than a backward-compatibility check. *)
Definition no_backward_event (ev : event) : bool :=
  match ev with
  | EvCheck IntegrationIsBackwardCompatible _
  | EvCheck ScriptIsBackwardCompatible _
  | EvCheck IncidentFieldIsBackwardCompatible _ => false
  | _ => true
  end.

(** Events other than a git command. *)
Definition no_git_event (ev : event) : bool :=
  match ev with EvRunCommand _ => false | _ => true end.

(** The definition path a code file is validated under (line 103). *)
Definition sibling_yml (file_path : string) : string :=
  fst (PyStr.splitext file_path) +:+ ".yml".

(** Componentwise inclusion of the four sets. *)
Definition sets_included (a b : file_sets) : Prop :=
  modified_files_list a ⊆ modified_files_list b
  /\ added_files_list a ⊆ added_files_list b
  /\ deleted_files a ⊆ deleted_files b
  /\ old_format_files a ⊆ old_format_files b.

(** No hidden path in the added and in the deleted set. *)
Definition guarded_sets_visible (acc : file_sets) : Prop :=
  (forall p, p ∈ added_files_list acc -> hidden p = false)
  /\ (forall p, p ∈ deleted_files acc -> hidden p = false).

(** Is the branch the trunk or a release branch?  (The test of
    [is_valid_structure], negated.) *)
Definition on_trunk_or_release (self : files_validator) : bool :=
  negb (negb (String.eqb (branch_name self) "master")
        && (negb (PyStr.startswith (branch_name self) "19.")
            && negb (PyStr.startswith (branch_name self) "20."))).

(** The configuration check that opens [is_valid_structure]. *)
Definition conf_json_step (E : Env) (self : files_validator) : M unit :=
  if validate_conf_json self then require E ConfJsonIsValid (args_of "") else ret tt.

(** A walked directory in which the package loop of [validate_all_files]
    finds a sub-directory without a [.yml] file. *)
Definition package_without_yml (E : Env)
    (triple : string * list string * list string) : bool :=
  let '(root, dirs, files) := triple in
  str_in root (DIR_LIST E)
  && str_in root (PACKAGE_SUPPORTING_DIRECTORIES E)
  && existsb
       (fun inner_dir =>
          match glob E (PyStr.path_join (PyStr.path_join root inner_dir) "*.yml") with
          | [] => true
          | _ :: _ => false
          end) dirs.

(** Does the full sweep meet such a directory? *)
Definition sweep_meets_empty_package (E : Env) : bool :=
  existsb
    (fun regex =>
       existsb (package_without_yml E) (os_walk E (PyStr.before_first ".*" regex)))
    (CHECKED_TYPES_REGEXES E).

(** The answer of the check an event records; other events count as
    passed. *)
Definition check_event_ok (E : Env) (ev : event) : bool :=
  match ev with
  | EvCheck c a => run_check E c a
  | _ => true
  end.

(** [m] returns in every world, only lowers the verdict, and lowers it
    exactly when one of the checks it calls fails. *)
Definition audited (E : Env) (m : M unit) : Prop :=
  exists tr,
    runs m tr (inr tt)
    /\ forallb lowering tr = true
    /\ existsb is_assign tr = negb (forallb (check_event_ok E) tr).

(** What one diff record puts in the four sets when it is classified on
    its own. *)
Definition record_sets (E : Env) (f : string) : file_sets :=
  result_value no_files (classify_record E false no_files f (World true [])).

(** Componentwise union of the four sets. *)
Definition merge_sets (a b : file_sets) : file_sets :=
  FileSets (modified_files_list a ∪ modified_files_list b)
           (added_files_list a ∪ added_files_list b)
           (deleted_files a ∪ deleted_files b)
           (old_format_files a ∪ old_format_files b).

#[global] Instance pairwise_disjoint_dec r : Decision (pairwise_disjoint r).
Proof. destruct r as [[[modified added] deleted] old_format]. simpl. apply _. Defined.

(** Two diff records agree when, between them, they put no path in two
    different sets. *)
Definition records_agree (E : Env) (f g : string) : Prop :=
  pairwise_disjoint (sets_of (merge_sets (record_sets E f) (record_sets E g))).

#[global] Instance records_agree_dec E f g : Decision (records_agree E f g).
Proof. unfold records_agree. apply _. Defined.

(** No two records of the diff put the same path in two different sets. *)
Definition collision_free (E : Env) (l : list string) : Prop :=
  Forall (fun f => Forall (records_agree E f) l) l.

#[global] Instance collision_free_dec E l : Decision (collision_free E l).
Proof. unfold collision_free. apply _. Defined.







(** Is the sibling definition path of a renamed code file one the cascade
    keeps: a checked content path, or a schema? *)
Definition recognised (E : Env) (yml : string) : bool :=
  checked_type E yml None || checked_type E yml (Some [SCHEMA_REGEX E]).

(** ** The monad: how runs compose *)

Lemma replay_app b tr1 tr2 : replay b (tr1 ++ tr2) = replay (replay b tr1) tr2.
Proof. unfold replay. apply fold_left_app. Qed.

Lemma replay_no_assign b tr : forallb no_assign tr = true -> replay b tr = b.
Proof.
  revert b. induction tr as [|ev tr IH]; intros b H; [reflexivity|].
  simpl in H. apply andb_true_iff in H as [Hev Htr].
  destruct ev; simpl in *; try discriminate; now apply IH.
Qed.

Lemma replay_lowering b tr :
  forallb lowering tr = true ->
  replay b tr = b && negb (existsb is_assign tr).
Proof.
  revert b. induction tr as [|ev tr IH]; intros b H.
  - simpl. now rewrite andb_true_r.
  - simpl in H. apply andb_true_iff in H as [Hev Htr].
    destruct ev as [| | | | | | | | | |[|]]; simpl in *; try discriminate;
      try now apply IH.
    change (replay false tr = b && false). rewrite (IH false Htr).
    now rewrite andb_false_r.
Qed.

Lemma replay_lowering_le b tr :
  forallb lowering tr = true -> replay b tr = true -> b = true.
Proof.
  intros H Hr. rewrite (replay_lowering _ _ H) in Hr.
  now apply andb_true_iff in Hr as [? _].
Qed.

Lemma rises_lowering b tr : forallb lowering tr = true -> rises b tr = false.
Proof.
  revert b. induction tr as [|ev tr IH]; intros b H; [reflexivity|].
  simpl in H. apply andb_true_iff in H as [Hev Htr].
  destruct ev as [| | | | | | | | | |[|]]; simpl in *; try discriminate;
    try now apply IH.
  rewrite andb_false_r. now apply IH.
Qed.

Lemma forallb_weaken {A} (P Q : A -> bool) l :
  (forall x, P x = true -> Q x = true) -> forallb P l = true -> forallb Q l = true.
Proof.
  intros HPQ. induction l as [|x l IH]; simpl; [easy|].
  intros H. apply andb_true_iff in H as [Hx Hl].
  apply andb_true_iff. split; auto.
Qed.

Lemma runs_ret {A} (a : A) : runs (ret a) [] (inr a).
Proof. intros [v t]. unfold ret. simpl. now rewrite app_nil_r. Qed.

Lemma runs_raise {A} e : runs (@raise A e) [] (inl e).
Proof. intros [v t]. unfold raise. simpl. now rewrite app_nil_r. Qed.

Lemma runs_emit ev : is_assign ev = false -> runs (emit ev) [ev] (inr tt).
Proof. intros H [v t]. unfold emit. simpl. destruct ev; try discriminate; reflexivity. Qed.

Lemma runs_set_valid b : runs (set_valid b) [EvSetValid b] (inr tt).
Proof. intros [v t]. reflexivity. Qed.

Lemma runs_bind_ok {A B} (m : M A) (k : A -> M B) tr1 a tr2 o :
  runs m tr1 (inr a) -> runs (k a) tr2 o -> runs (bind m k) (tr1 ++ tr2) o.
Proof.
  intros Hm Hk w. unfold bind. rewrite Hm. simpl. rewrite Hk. simpl.
  now rewrite replay_app, app_assoc.
Qed.

Lemma runs_bind_raise {A B} (m : M A) (k : A -> M B) tr e :
  runs m tr (inl e) -> runs (bind m k) tr (inl e).
Proof. intros Hm w. unfold bind. rewrite Hm. reflexivity. Qed.

Lemma runs_final {A} (m : M A) tr o w :
  runs m tr o ->
  final_world (m w) = World (replay (is_valid w) tr) (trace w ++ tr).
Proof. intros H. rewrite H. now destruct o. Qed.

Lemma ok_eta {A} (d : A) (r : result A) :
  is_ok r = true -> r = Ok (result_value d r) (final_world r).
Proof. now destruct r. Qed.

Lemma ok_eta3 {A B C} (d : A * B * C) (r : result (A * B * C)) :
  is_ok r = true ->
  r = Ok ((result_value d r).1.1, (result_value d r).1.2, (result_value d r).2)
        (final_world r).
Proof. destruct r as [[[a b] c] w|e w]; [reflexivity|discriminate]. Qed.

Lemma ok_eta4 {A B C D} (d : A * B * C * D) (r : result (A * B * C * D)) :
  is_ok r = true ->
  r = Ok ((result_value d r).1.1.1, (result_value d r).1.1.2,
          (result_value d r).1.2, (result_value d r).2)
        (final_world r).
Proof. destruct r as [[[[a b] c] d'] w|e w]; [reflexivity|discriminate]. Qed.

Lemma pass_ret s P {A} (a : A) : pass s P (ret a).
Proof. exists [], (inr a). split; [apply runs_ret|]. now split. Qed.

Lemma pass_raise P {A} e : pass false P (@raise A e).
Proof. exists [], (inl e). split; [apply runs_raise|]. now split. Qed.

Lemma pass_emit s P ev : is_assign ev = false -> P ev = true -> pass s P (emit ev).
Proof.
  intros Ha HP. exists [ev], (inr tt). split; [now apply runs_emit|].
  simpl. now rewrite HP.
Qed.

Lemma pass_set_valid s P b : P (EvSetValid b) = true -> pass s P (set_valid b).
Proof.
  intros HP. exists [EvSetValid b], (inr tt). split; [apply runs_set_valid|].
  simpl. now rewrite HP.
Qed.

Lemma pass_bind s P {A B} (m : M A) (k : A -> M B) :
  pass s P m -> (forall a, pass s P (k a)) -> pass s P (bind m k).
Proof.
  intros (tr1 & o1 & Hm & HP1 & Hs1) Hk. destruct o1 as [e|a].
  - exists tr1, (inl e). split; [now apply runs_bind_raise|]. now split.
  - destruct (Hk a) as (tr2 & o2 & Hk' & HP2 & Hs2).
    exists (tr1 ++ tr2), o2. split; [now apply runs_bind_ok with a|].
    split; [|assumption]. rewrite forallb_app. now rewrite HP1, HP2.
Qed.

Lemma pass_weaken s P Q {A} (m : M A) :
  (forall ev, P ev = true -> Q ev = true) -> pass s P m -> pass false Q m.
Proof.
  intros HPQ (tr & o & Hm & HP & _). exists tr, o. split; [assumption|].
  split; [now apply forallb_weaken with P|discriminate].
Qed.

Lemma pass_events s P Q {A} (m : M A) :
  (forall ev, P ev = true -> Q ev = true) -> pass s P m -> pass s Q m.
Proof.
  intros HPQ (tr & o & Hm & HP & Hs). exists tr, o. split; [assumption|].
  split; [now apply forallb_weaken with P|assumption].
Qed.

Lemma pass_for_each s P {A} (l : list A) (body : A -> M unit) :
  (forall x, pass s P (body x)) -> pass s P (for_each l body).
Proof.
  intros Hb. induction l as [|x l IH]; simpl.
  - apply pass_ret.
  - apply pass_bind; [apply Hb|intros _; apply IH].
Qed.

Lemma pass_fold_each s P {A S} (l : list A) (body : S -> A -> M S) acc :
  (forall acc x, pass s P (body acc x)) -> pass s P (fold_each l body acc).
Proof.
  intros Hb. revert acc. induction l as [|x l IH]; intros acc; simpl.
  - apply pass_ret.
  - apply pass_bind; [apply Hb|intros acc'; apply IH].
Qed.

Lemma pass_py_index P l i : pass false P (py_index l i).
Proof. unfold py_index. destruct (nth_error l i); [apply pass_ret|apply pass_raise]. Qed.

Create HintDb pass_db.

#[export] Hint Resolve pass_ret pass_raise pass_py_index : pass_db.

Ltac pass_step :=
  match goal with
  | |- pass _ _ (ret _) => apply pass_ret
  | |- pass false _ (raise _) => apply pass_raise
  | |- pass _ _ (bind _ _) => apply pass_bind; [|intros ?]
  | |- pass _ _ (emit _) => apply pass_emit; reflexivity
  | |- pass _ _ (print _) => apply pass_emit; reflexivity
  | |- pass _ _ (print_warning _) => apply pass_emit; reflexivity
  | |- pass _ _ (print_error _) => apply pass_emit; reflexivity
  | |- pass _ _ (print_color _) => apply pass_emit; reflexivity
  | |- pass _ _ (set_valid false) => apply pass_set_valid; reflexivity
  | |- pass _ _ (for_each _ _) => apply pass_for_each; intros ?
  | |- pass _ _ (fold_each _ _ _) => apply pass_fold_each; intros ? ?
  | |- pass _ _ (if ?c then _ else _) => destruct c
  | |- pass _ _ (match ?x with _ => _ end) => destruct x
  | |- pass _ _ _ => solve [eauto with pass_db]
  end.

Ltac pass_auto := repeat pass_step.

(** ** The passes of the validator, as runs *)

Section Passes.

Context (E : Env).

Lemma pass_run_cmd s cmd : pass s no_assign (run_cmd E cmd).
Proof. unfold run_cmd. pass_auto. Qed.

Lemma pass_load_yaml s path : pass s no_assign (load_yaml E path).
Proof. unfold load_yaml. pass_auto. Qed.

Hint Resolve pass_run_cmd pass_load_yaml : pass_db.

Lemma pass_is_py_script_or_integration file_path :
  pass false no_assign (_is_py_script_or_integration E file_path).
Proof. unfold _is_py_script_or_integration. pass_auto. Qed.

Hint Resolve pass_is_py_script_or_integration : pass_db.

Lemma pass_route_record pif acc file_data file_status file_path :
  pass false no_assign (route_record E pif acc file_data file_status file_path).
Proof. unfold route_record. pass_auto. Qed.

Hint Resolve pass_route_record : pass_db.

Lemma pass_classify_record pif acc f :
  pass false no_assign (classify_record E pif acc f).
Proof. unfold classify_record. pass_auto. Qed.

Hint Resolve pass_classify_record : pass_db.

Lemma pass_get_modified_files files_string tag pif :
  pass false no_assign (get_modified_files E files_string tag pif).
Proof.
  unfold get_modified_files, classify_diff. pass_auto.
Qed.

Hint Resolve pass_get_modified_files : pass_db.

Lemma pass_get_modified_and_added_files self tag :
  pass false no_assign (get_modified_and_added_files E self tag).
Proof.
  unfold get_modified_and_added_files. pass_auto.
  all: repeat match goal with a : (_ * _)%type |- _ => destruct a end; pass_auto.
Qed.

Lemma pass_call_check s c a : pass s lowering (call_check E c a).
Proof. unfold call_check. pass_auto. Qed.

Hint Resolve pass_call_check : pass_db.

Lemma pass_fail_unless s ok : pass s lowering (fail_unless ok).
Proof. unfold fail_unless. pass_auto. Qed.

Hint Resolve pass_fail_unless : pass_db.

Lemma pass_require s c a : pass s lowering (require E c a).
Proof. unfold require. pass_auto. Qed.

Hint Resolve pass_require : pass_db.

Lemma pass_require_backward s self c a : pass s lowering (require_backward E self c a).
Proof. unfold require_backward. pass_auto. Qed.

Hint Resolve pass_require_backward : pass_db.

Lemma pass_validate_modified_file s self e :
  pass s lowering (validate_modified_file E self e).
Proof. unfold validate_modified_file. pass_auto. Qed.

Lemma pass_validate_modified_files s self modified_files :
  pass s lowering (validate_modified_files E self modified_files).
Proof.
  unfold validate_modified_files. apply pass_for_each.
  apply pass_validate_modified_file.
Qed.

Lemma pass_validate_added_file self file_path :
  pass false lowering (validate_added_file E self file_path).
Proof.
  unfold validate_added_file. pass_auto.
Qed.

Lemma pass_validate_added_files self added_files :
  pass false lowering (validate_added_files E self added_files).
Proof.
  unfold validate_added_files. apply pass_for_each.
  apply pass_validate_added_file.
Qed.

Lemma sweep_event_lowering ev : sweep_event ev = true -> lowering ev = true.
Proof. destruct ev as [| | | | | | | | | |[|]]; simpl; intros H; try reflexivity; discriminate. Qed.

Lemma no_assign_lowering ev : no_assign ev = true -> lowering ev = true.
Proof. destruct ev; simpl; intros H; try reflexivity; discriminate. Qed.

Lemma pass_sweep_check s a : pass s sweep_event (require E StructureIsValidScheme a).
Proof.
  unfold require, call_check, fail_unless.
  destruct (run_check E StructureIsValidScheme a); pass_auto.
Qed.

Hint Resolve pass_sweep_check : pass_db.

Lemma pass_validate_all_files self : pass false sweep_event (validate_all_files E self).
Proof.
  unfold validate_all_files. pass_auto.
  destruct x0 as [[root dirs] files]. unfold validate_walked. pass_auto.
Qed.

(** The loop of [validate_no_old_format] reads every file and keeps, in
    order, those without a [toversion] key. *)
Lemma old_format_fold l acc :
  runs (fold_each l (old_format_step E) acc) (map EvGetYaml l)
    (inr (acc ++ List.filter (fun f => negb (dict_has (get_yaml E f) "toversion")) l)).
Proof.
  revert acc. induction l as [|f l IH]; intros acc; simpl.
  - rewrite app_nil_r. apply runs_ret.
  - change (EvGetYaml f :: map EvGetYaml l) with ([EvGetYaml f] ++ map EvGetYaml l).
    destruct (negb (dict_has (get_yaml E f) "toversion")) eqn:Hf.
    + eapply runs_bind_ok with (a := acc ++ [f]).
      * intros w. unfold old_format_step, load_yaml, bind, emit, ret. simpl.
        now rewrite Hf.
      * specialize (IH (acc ++ [f])). now rewrite <- app_assoc in IH.
    + eapply runs_bind_ok with (a := acc).
      * intros w. unfold old_format_step, load_yaml, bind, emit, ret. simpl.
        now rewrite Hf.
      * apply IH.
Qed.

End Passes.

(** ** The string primitives on sample inputs *)

Example lower_ex : PyStr.lower "R100" = "r100".
Proof. reflexivity. Qed.

Example split_ws_ex :
  PyStr.split_ws ("R100" +:+ String "009" "a/b.py" +:+ String "009" "c/d.py")
  = ["R100"; "a/b.py"; "c/d.py"].
Proof. reflexivity. Qed.

Example split_on_ex : PyStr.split_on "010" (String "010" "") = [""; ""].
Proof. reflexivity. Qed.

Example splitext_ex1 : PyStr.splitext "Integrations/Foo/Foo.py" = ("Integrations/Foo/Foo", ".py").
Proof. reflexivity. Qed.

Example splitext_ex2 : PyStr.splitext "a.b/.bashrc" = ("a.b/.bashrc", "").
Proof. reflexivity. Qed.

Example splitext_ex3 : PyStr.splitext "a/..x.tar.gz" = ("a/..x.tar", ".gz").
Proof. reflexivity. Qed.

Example endswith_ex : PyStr.endswith "x/foo_test.py" "_test.py" = true.
Proof. reflexivity. Qed.

Example contains_ex : PyStr.contains "master" "origin/master" = true.
Proof. reflexivity. Qed.

Example dirname_ex : PyStr.dirname "Scripts/Foo/Foo.yml" = "Scripts/Foo".
Proof. reflexivity. Qed.

Example dirname_root_ex : PyStr.dirname "//x" = "//".
Proof. reflexivity. Qed.

Example path_join_ex : PyStr.path_join (PyStr.path_join "Scripts" "Foo") "*.yml" = "Scripts/Foo/*.yml".
Proof. reflexivity. Qed.

(** ** The validator on the sample repository *)

Example init_default_ex :
  init_default Sample.env Sample.start
  = Ok Sample.on_feature (World true [EvRunCommand "git branch"; EvSetValid true]).
Proof. reflexivity. Qed.

Example reconciled_feature_ex :
  match get_modified_and_added_files Sample.env Sample.on_feature "origin/master"
          Sample.start with
  | Ok (modified, added, old_format) _ =>
      (elements modified, elements added, elements old_format)
  | Raise _ _ => ([], [], [])
  end
  = ([EPath "Integrations/Foo/Foo.yml"; EPath "Integrations/Local/Local.yml"],
     ["Scripts/New/New.yml"; "IncidentFields/field.json"],
     ["Scripts/script-PyCapped.yml"; "Integrations/integration-PyOld.yml"]).
Proof. vm_compute. reflexivity. Qed.

(** The old-format file without [toversion] fails the feature branch. *)
Example feature_branch_verdict_ex :
  result_value true (is_valid_structure Sample.env Sample.on_feature Sample.start) = false.
Proof. vm_compute. reflexivity. Qed.

(** On [master] the failing file of the previous-version diff is only
    reported: the verdict stays true. *)
Example master_verdict_ex :
  result_value false (is_valid_structure Sample.env Sample.on_master Sample.start) = true.
Proof. vm_compute. reflexivity. Qed.

(** A line with a status and no path: [file_data[1]] raises. *)
Example status_without_path_ex :
  classify_record Sample.env false no_files "M" Sample.start
  = Raise IndexError Sample.start.
Proof. reflexivity. Qed.

(** ** The old-format gate *)

Lemma replay_get_yaml b l : replay b (map EvGetYaml l) = b.
Proof. revert b. induction l; intros b; simpl; auto. Qed.

Lemma get_yaml_no_assign l : existsb is_assign (map EvGetYaml l) = false.
Proof. induction l; simpl; auto. Qed.

Lemma get_yaml_not_assignment l b : ~ In (EvSetValid b) (map EvGetYaml l).
Proof. induction l; simpl; [tauto|]. intros [H|H]; [discriminate|tauto]. Qed.

(** C4: [validate_no_old_format] returns without an exception; it assigns
    [False] to the verdict exactly when some file of the old-format set has
    no [toversion] key, and when every file has the key it makes no
    assignment and the verdict is the one before the call. *)
Theorem validate_no_old_format_verdict (E : Env) (old_format : gset string) (w : world) :
  exists tr,
    validate_no_old_format E old_format w
      = Ok tt (World (replay (is_valid w) tr) (trace w ++ tr))
    /\ ((exists f, f ∈ old_format /\ dict_has (get_yaml E f) "toversion" = false)
        -> In (EvSetValid false) tr /\ replay (is_valid w) tr = false)
    /\ ((forall f, f ∈ old_format -> dict_has (get_yaml E f) "toversion" = true)
        -> existsb is_assign tr = false /\ replay (is_valid w) tr = is_valid w)
    /\ (In (EvSetValid false) tr
        <-> exists f, f ∈ old_format /\ dict_has (get_yaml E f) "toversion" = false)
    /\ ~ In (EvSetValid true) tr.
Proof.
  set (missing := fun f => negb (dict_has (get_yaml E f) "toversion")).
  pose proof (old_format_fold E (elements old_format) []) as Hfold.
  simpl in Hfold. fold missing in Hfold.
  assert (Hmem : forall f, In f (List.filter missing (elements old_format))
                           <-> f ∈ old_format /\ dict_has (get_yaml E f) "toversion" = false).
  { intros f. rewrite filter_In, <- list_elem_of_In, elem_of_elements.
    unfold missing. now rewrite negb_true_iff. }
  destruct (List.filter missing (elements old_format)) as [|f0 rest] eqn:Hinv.
  - (* every file carries the key *)
    exists (map EvGetYaml (elements old_format)).
    assert (Hnone : ~ exists f, f ∈ old_format /\ dict_has (get_yaml E f) "toversion" = false).
    { intros (f & Hf). apply Hmem in Hf. destruct Hf. }
    split.
    { unfold validate_no_old_format, bind. rewrite Hfold. reflexivity. }
    rewrite replay_get_yaml, get_yaml_no_assign.
    repeat split; try tauto.
    + intros H. now apply get_yaml_not_assignment in H.
    + apply get_yaml_not_assignment.
  - (* [f0] has no [toversion] *)
    set (msg := EvPrintError
      ("You should update the following files to the package format, for further details please visit "
       +:+ "https://github.com/demisto/content/tree/master/docs/package_directory_structure. "
       +:+ "The files are:" +:+ newline +:+ PyStr.join newline (f0 :: rest))).
    exists (map EvGetYaml (elements old_format) ++ [msg; EvSetValid false]).
    assert (Hsome : exists f, f ∈ old_format /\ dict_has (get_yaml E f) "toversion" = false).
    { exists f0. apply Hmem. now left. }
    assert (Hin : In (EvSetValid false)
                    (map EvGetYaml (elements old_format) ++ [msg; EvSetValid false])).
    { apply in_or_app. right. simpl. tauto. }
    assert (Hrep : replay (is_valid w)
                     (map EvGetYaml (elements old_format) ++ [msg; EvSetValid false]) = false).
    { rewrite replay_app. reflexivity. }
    split.
    { unfold validate_no_old_format, bind. rewrite Hfold. simpl.
      unfold print_error, emit, set_valid. simpl.
      rewrite Hrep. subst msg. simpl. now rewrite <- !app_assoc. }
    split; [|split; [|split]].
    + intros _. now split.
    + intros Hall. destruct Hsome as (f & Hf & Hno). rewrite (Hall f Hf) in Hno. discriminate.
    + split; intros _; assumption.
    + intros Hbad. apply in_app_or in Hbad as [Hbad|Hbad].
      * now apply get_yaml_not_assignment in Hbad.
      * simpl in Hbad. destruct Hbad as [Hbad|[Hbad|[]]]; discriminate.
Qed.

(** ** Worlds only grow *)

Lemma pass_extends s P {A} (m : M A) : pass s P m -> extends m.
Proof.
  intros (tr & o & Hm & _) w. exists tr. now rewrite (runs_final m tr o w Hm).
Qed.

Lemma extends_ret {A} (a : A) : extends (ret a).
Proof. intros w. exists []. simpl. now rewrite app_nil_r. Qed.

Lemma extends_get_valid : extends get_valid.
Proof. intros w. exists []. simpl. now rewrite app_nil_r. Qed.

Lemma extends_set_valid b : extends (set_valid b).
Proof. intros w. now exists [EvSetValid b]. Qed.

Lemma extends_bind {A B} (m : M A) (k : A -> M B) :
  extends m -> (forall a, extends (k a)) -> extends (bind m k).
Proof.
  intros Hm Hk w. destruct (Hm w) as [tr1 H1]. unfold bind.
  destruct (m w) as [a w1|e w1]; simpl in *.
  - destruct (Hk a w1) as [tr2 H2]. exists (tr1 ++ tr2).
    now rewrite H2, H1, app_assoc.
  - now exists tr1.
Qed.

Lemma extends_emit ev : extends (emit ev).
Proof. intros w. now exists [ev]. Qed.

Lemma bind_emit {B} ev (k : unit -> M B) w :
  bind (emit ev) k w = k tt (World (is_valid w) (trace w ++ [ev])).
Proof. reflexivity. Qed.

Lemma bind_bind {A B C} (m : M A) (g : A -> M B) (k : B -> M C) w :
  bind (bind m g) k w = bind m (fun a => bind (g a) k) w.
Proof. unfold bind. now destruct (m w). Qed.


(** A strict pass over [unit] is the run of its own trace from the empty
    world. *)
Lemma pass_own_trace P (m : M unit) :
  pass true P m ->
  runs m (trace (final_world (m (World true [])))) (inr tt)
  /\ forallb P (trace (final_world (m (World true [])))) = true.
Proof.
  intros (tr & o & Hm & HP & Hs).
  rewrite (runs_final m tr o _ Hm). simpl.
  destruct o as [e|[]]; [specialize (Hs eq_refl); discriminate|].
  now split.
Qed.

Lemma runs_for_each {A} (body : A -> M unit) (trf : A -> list event) l :
  (forall x, runs (body x) (trf x) (inr tt)) ->
  runs (for_each l body) (flat_map trf l) (inr tt).
Proof.
  intros Hb. induction l as [|x l IH]; simpl.
  - apply runs_ret.
  - now apply runs_bind_ok with tt.
Qed.

Section Verdicts.

Context (E : Env) (self : files_validator).

Lemma runs_validate_modified_file e :
  runs (validate_modified_file E self e) (modified_file_trace E self e) (inr tt)
  /\ forallb lowering (modified_file_trace E self e) = true.
Proof. apply pass_own_trace, pass_validate_modified_file. Qed.

Lemma runs_validate_modified_files modified_files :
  runs (validate_modified_files E self modified_files)
    (flat_map (modified_file_trace E self) (elements modified_files)) (inr tt).
Proof.
  unfold validate_modified_files. apply runs_for_each.
  intros e. apply runs_validate_modified_file.
Qed.

Lemma lowering_flat_map {A} (trf : A -> list event) l :
  (forall x, forallb lowering (trf x) = true) ->
  forallb lowering (flat_map trf l) = true.
Proof.
  intros H. induction l as [|x l IH]; simpl; [reflexivity|].
  rewrite forallb_app. now rewrite H, IH.
Qed.

Lemma fails_iff_assigns e :
  fails_modified_validation E self e = existsb is_assign (modified_file_trace E self e).
Proof.
  unfold fails_modified_validation.
  destruct (runs_validate_modified_file e) as [Hr Hl].
  rewrite (runs_final _ _ _ _ Hr). simpl.
  rewrite (replay_lowering _ _ Hl). simpl. now rewrite negb_involutive.
Qed.

(** [validate_modified_files] leaves the verdict true only if it was true
    and no element of the set fails. *)
Lemma validate_modified_files_verdict modified_files w :
  exists w',
    validate_modified_files E self modified_files w = Ok tt w'
    /\ is_valid w'
       = is_valid w
         && forallb (fun e => negb (fails_modified_validation E self e))
              (elements modified_files).
Proof.
  pose proof (runs_validate_modified_files modified_files) as Hr.
  exists (World (replay (is_valid w)
                   (flat_map (modified_file_trace E self) (elements modified_files)))
            (trace w ++ flat_map (modified_file_trace E self) (elements modified_files))).
  split; [apply Hr|]. simpl.
  rewrite replay_lowering
    by (apply lowering_flat_map; intros e; apply runs_validate_modified_file).
  apply (f_equal (andb (is_valid w))). clear Hr.
  induction (elements modified_files) as [|e l IH]; simpl; [reflexivity|].
  rewrite existsb_app, negb_orb, IH. rewrite fails_iff_assigns.
  reflexivity.
Qed.

End Verdicts.

(** ** The previous-version check *)

#[export] Hint Resolve pass_run_cmd pass_load_yaml pass_get_modified_files
  pass_get_modified_and_added_files pass_call_check pass_fail_unless pass_require
  pass_validate_modified_files pass_validate_added_files pass_validate_all_files
  pass_sweep_check : pass_db.

Ltac extends_step :=
  match goal with
  | |- extends (ret _) => apply extends_ret
  | |- extends get_valid => apply extends_get_valid
  | |- extends (set_valid _) => apply extends_set_valid
  | |- extends (emit _) => apply extends_emit
  | |- extends (print_color _) => apply extends_emit
  | |- extends (bind _ _) => apply extends_bind; [|intros ?]
  | |- extends (if ?c then _ else _) => destruct c
  | |- extends (match ?x with _ => _ end) => destruct x
  | |- extends _ => solve [eapply (pass_extends false); eauto with pass_db]
  | |- extends _ => solve [eapply (pass_extends false); pass_auto]
  end.

Ltac extends_auto := repeat extends_step.

Lemma bind_runs {A B} (m : M A) (k : A -> M B) tr o w :
  runs m tr o ->
  bind m k w
  = match o with
    | inl e => Raise e (World (replay (is_valid w) tr) (trace w ++ tr))
    | inr a => k a (World (replay (is_valid w) tr) (trace w ++ tr))
    end.
Proof. intros H. unfold bind. rewrite H. now destruct o. Qed.

Lemma bind_get_valid {B} (k : bool -> M B) w : bind get_valid k w = k (is_valid w) w.
Proof. reflexivity. Qed.

Section PreviousVersion.

Context (E : Env) (self : files_validator).

(** What follows the diff collection in [validate_against_previous_version]. *)
Lemma previous_version_tail modified_files (no_error : bool) w :
  exists w',
    (prev_self_valid <- get_valid ;;
     validate_modified_files E self modified_files ;;;
     if no_error then set_valid prev_self_valid else ret tt) w = Ok tt w'
    /\ is_valid w'
       = if no_error then is_valid w
         else is_valid w
              && forallb (fun e => negb (fails_modified_validation E self e))
                   (elements modified_files).
Proof.
  rewrite bind_get_valid.
  destruct (validate_modified_files_verdict E self modified_files w) as (w1 & Hrun & Hv).
  unfold bind. rewrite Hrun. destruct no_error.
  - eexists. split; reflexivity.
  - exists w1. now split.
Qed.

Lemma previous_version_guard_true :
  PyStr.truthy (prev_ver self) = true -> prev_ver self <> "master" ->
  PyStr.truthy (prev_ver self) && negb (String.eqb (prev_ver self) "master") = true.
Proof.
  intros Ht Hne. rewrite Ht. apply String.eqb_neq in Hne. now rewrite Hne.
Qed.

End PreviousVersion.

(** With [no_error], the verdict after the previous-version check is the
    verdict before it, also when the diff collection raises. *)
Lemma no_error_restores (E : Env) (self : files_validator) (w : world) :
  is_valid (final_world (validate_against_previous_version E self true w)) = is_valid w.
Proof.
  unfold validate_against_previous_version.
  destruct (PyStr.truthy (prev_ver self) && negb (String.eqb (prev_ver self) "master"));
    [|reflexivity].
  destruct (pass_get_modified_and_added_files E self (prev_ver self))
    as (tr & o & Hruns & Hquiet & _).
  unfold print_color. rewrite bind_emit. rewrite (bind_runs _ _ tr o _ Hruns).
  simpl. rewrite (replay_no_assign _ _ Hquiet).
  destruct o as [e|[[modified added] old_format]]; [reflexivity|].
  destruct (previous_version_tail E self modified true
              (World (is_valid w)
                 ((trace w ++ [EvPrintColor ("Starting validation against " +:+ prev_ver self)])
                  ++ tr))) as (w' & Hrun & Hv).
  rewrite Hrun. exact Hv.
Qed.

(** C2: with a non-empty [prev_ver] other than [master],
    [validate_against_previous_version(no_error=True)] ends with the verdict
    it started with, whatever the previous-version diff holds and also when
    the diff collection raises; without [no_error], a file of that diff that
    fails the modified-file validation leaves the verdict false. *)
Theorem previous_version_verdict (E : Env) (self : files_validator) (w : world) :
  PyStr.truthy (prev_ver self) = true ->
  prev_ver self <> "master" ->
  is_valid (final_world (validate_against_previous_version E self true w)) = is_valid w
  /\ forall modified added old_format w1,
       get_modified_and_added_files E self (prev_ver self)
         (World (is_valid w)
            (trace w ++ [EvPrintColor ("Starting validation against " +:+ prev_ver self)]))
       = Ok (modified, added, old_format) w1 ->
       (exists w', validate_against_previous_version E self true w = Ok tt w'
                   /\ is_valid w' = is_valid w)
       /\ (forall e, e ∈ modified -> fails_modified_validation E self e = true ->
           exists w', validate_against_previous_version E self false w = Ok tt w'
                      /\ is_valid w' = false).
Proof.
  intros Ht Hne.
  pose proof (previous_version_guard_true self Ht Hne) as Hguard.
  destruct (pass_get_modified_and_added_files E self (prev_ver self))
    as (tr & o & Hruns & Hquiet & _).
  split.
  - apply no_error_restores.
  - intros modified added old_format w1 Hdiff.
    assert (Hw1 : is_valid w1 = is_valid w).
    { rewrite Hruns in Hdiff. destruct o; simpl in Hdiff; [discriminate|].
      injection Hdiff as _ <-. simpl. now rewrite (replay_no_assign _ _ Hquiet). }
    split.
    + destruct (previous_version_tail E self modified true w1) as (w' & Hrun & Hv).
      exists w'. split; [|now rewrite Hv].
      unfold validate_against_previous_version. rewrite Hguard.
      unfold print_color. rewrite bind_emit. unfold bind at 1. rewrite Hdiff. exact Hrun.
    + intros e He Hfail.
      destruct (previous_version_tail E self modified false w1) as (w' & Hrun & Hv).
      exists w'. split.
      * unfold validate_against_previous_version. rewrite Hguard.
        unfold print_color. rewrite bind_emit. unfold bind at 1. rewrite Hdiff. exact Hrun.
      * rewrite Hv. apply andb_false_iff. right.
        apply not_true_is_false. intros Hall.
        rewrite forallb_forall in Hall.
        assert (Hin : In e (elements modified)).
        { apply list_elem_of_In, elem_of_elements, He. }
        specialize (Hall e Hin). rewrite Hfail in Hall. discriminate.
Qed.

Lemma previous_version_verdict_witness :
  is_valid (final_world
              (validate_against_previous_version Sample.env Sample.on_master true Sample.start))
  = true
  /\ exists w', validate_against_previous_version Sample.env Sample.on_master false Sample.start
                = Ok tt w'
                /\ is_valid w' = false.
Proof.
  destruct (previous_version_verdict Sample.env Sample.on_master Sample.start)
    as [Hkeep Hdiff]; [reflexivity|discriminate|].
  split; [exact Hkeep|].
  edestruct Hdiff as [_ Hfail].
  { apply (ok_eta3 (∅, ∅, ∅)). vm_compute. reflexivity. }
  apply (Hfail (EPath "Integrations/Bad/Bad.yml")).
  - apply (bool_decide_eq_true_1 _). vm_compute. reflexivity.
  - vm_compute. reflexivity.
Defined.

(** ** The guard of the previous-version check *)

Lemma extends_validate_against_previous_version E self no_error :
  extends (validate_against_previous_version E self no_error).
Proof. unfold validate_against_previous_version. extends_auto. Qed.


(** ** The verdict over a whole run *)

Lemma pass_lowering_of_quiet s {A} (m : M A) : pass s no_assign m -> pass s lowering m.
Proof. apply pass_events, no_assign_lowering. Qed.

Lemma pass_lowering_of_sweep s {A} (m : M A) : pass s sweep_event m -> pass s lowering m.
Proof. apply pass_events, sweep_event_lowering. Qed.

Lemma pass_validate_no_old_format E s old_format :
  pass s lowering (validate_no_old_format E old_format).
Proof.
  unfold validate_no_old_format, old_format_step. pass_auto.
  apply pass_lowering_of_quiet, pass_load_yaml.
Qed.

#[export] Hint Resolve pass_validate_no_old_format : pass_db.

Lemma pass_validate_committed_files E self :
  pass false lowering (validate_committed_files E self).
Proof.
  unfold validate_committed_files. apply pass_bind.
  - apply pass_lowering_of_quiet, pass_get_modified_and_added_files.
  - intros [[modified added] old_format].
    destruct (schema_changed_in E (elements modified)).
    + apply pass_lowering_of_sweep, pass_validate_all_files.
    + pass_auto.
Qed.

Lemma pass_never_rises s {A} (m : M A) : pass s lowering m -> never_rises m.
Proof.
  intros (tr & o & Hruns & Hlow & _). exists tr, o. split; [assumption|].
  intros b. now apply rises_lowering.
Qed.

Lemma pass_declining s {A} (m : M A) : pass s lowering m -> declining m.
Proof.
  intros (tr & o & Hruns & Hlow & _) w. rewrite (runs_final m tr o w Hruns). simpl.
  now apply replay_lowering_le.
Qed.

Lemma declining_bind {A B} (m : M A) (k : A -> M B) :
  declining m -> (forall a, declining (k a)) -> declining (bind m k).
Proof.
  intros Hm Hk w. specialize (Hm w). unfold bind.
  destruct (m w) as [a w1|e w1]; simpl in *; [|assumption].
  intros H. apply Hm. now apply (Hk a w1).
Qed.

Lemma declining_get_valid : declining get_valid.
Proof. intros w H. exact H. Qed.

Lemma declining_no_error_check E self :
  declining (validate_against_previous_version E self true).
Proof. intros w. now rewrite no_error_restores. Qed.

Lemma declining_is_valid_structure E self : declining (is_valid_structure E self).
Proof.
  unfold is_valid_structure.
  repeat match goal with
    | |- declining (require _ _ _) => apply (pass_declining true), pass_require
    | |- declining (validate_committed_files _ _) =>
        apply (pass_declining false), pass_validate_committed_files
    | |- declining (validate_all_files _ _) =>
        apply (pass_declining false), pass_lowering_of_sweep, pass_validate_all_files
    | |- declining (validate_against_previous_version _ _ true) =>
        apply declining_no_error_check
    | |- declining get_valid => apply declining_get_valid
    | |- declining (ret _) => apply (pass_declining true), pass_ret
    | |- declining (if ?c then _ else _) => destruct c
    | |- declining (bind _ _) => apply declining_bind; [|intros ?]
    end.
Qed.

Lemma ends_with_get_valid {A B} (m : M A) (n : M B) w b w' :
  bind m (fun _ => bind n (fun _ => get_valid)) w = Ok b w' -> b = is_valid w'.
Proof.
  unfold bind, get_valid. destruct (m w) as [a w1|e w1]; [|discriminate].
  destruct (n w1) as [a' w2|e w2]; [|discriminate].
  intros H. now injection H as <- <-.
Qed.

(** C6, as the code has it: the passes of a run only ever assign [False] to
    the verdict, so none of them moves it from false to true; the one
    assignment that can raise it is the restore that ends
    [validate_against_previous_version(no_error=True)], which puts back the
    verdict that call started with; and [is_valid_structure] never ends with
    a true verdict unless the verdict was true when it began. *)
Theorem verdict_rises_only_by_restore (E : Env) (self : files_validator) :
  (never_rises (validate_committed_files E self)
   /\ never_rises (validate_all_files E self)
   /\ (forall modified, never_rises (validate_modified_files E self modified))
   /\ (forall added, never_rises (validate_added_files E self added))
   /\ (forall old_format, never_rises (validate_no_old_format E old_format)))
  /\ (forall w,
        is_valid (final_world (validate_against_previous_version E self true w)) = is_valid w)
  /\ (forall w,
        is_valid (final_world (is_valid_structure E self w)) = true -> is_valid w = true)
  /\ (forall w b w', is_valid_structure E self w = Ok b w' -> b = is_valid w').
Proof.
  split; [|split; [|split]].
  - repeat split; intros.
    + apply (pass_never_rises false), pass_validate_committed_files.
    + apply (pass_never_rises false), pass_lowering_of_sweep, pass_validate_all_files.
    + apply (pass_never_rises true), pass_validate_modified_files.
    + apply (pass_never_rises false), pass_validate_added_files.
    + apply (pass_never_rises true), pass_validate_no_old_format.
  - apply no_error_restores.
  - apply declining_is_valid_structure.
  - intros w b w' H. unfold is_valid_structure in H.
    eapply ends_with_get_valid. exact H.
Qed.

(** C6 as stated fails: on [master], with a file in the previous-version diff
    that fails validation, the advisory pass lowers the verdict and its
    restore raises it again within the one call of [is_valid_structure]. *)
Lemma verdict_rises_within_run :
  rises (is_valid Sample.start)
    (trace (final_world (is_valid_structure Sample.env Sample.on_master Sample.start)))
  = true.
Proof. vm_compute. reflexivity. Qed.

(** ** Changeset or full sweep *)

Lemma schema_changed_fold E l b :
  fold_left
    (fun schema_changed f =>
       if checked_type E (entry_path f) (Some [SCHEMA_REGEX E]) then true
       else schema_changed) l b
  = b || existsb (fun f => checked_type E (entry_path f) (Some [SCHEMA_REGEX E])) l.
Proof.
  revert b. induction l as [|f l IH]; intros b; simpl.
  - now rewrite orb_false_r.
  - rewrite IH. destruct (checked_type E (entry_path f) _), b; reflexivity.
Qed.

Lemma schema_changed_iff E (modified : gset entry) :
  schema_changed_in E (elements modified) = true
  <-> exists e, e ∈ modified /\ checked_type E (entry_path e) (Some [SCHEMA_REGEX E]) = true.
Proof.
  unfold schema_changed_in. rewrite schema_changed_fold. simpl.
  rewrite existsb_exists. split; intros (e & He & Hs); exists e; split; auto.
  - now apply elem_of_elements, list_elem_of_In.
  - now apply list_elem_of_In, elem_of_elements.
Qed.

(** C3: once the changeset is collected, [validate_committed_files] runs the
    full-repository sweep, and nothing but the sweep, when some path of the
    modified set matches the schema pattern; otherwise it validates the
    modified files, then the added files, then gates the old-format files. *)
Theorem committed_files_dispatch (E : Env) (self : files_validator) (w : world)
    (modified : gset entry) (added old_format : gset string) (w1 : world) :
  get_modified_and_added_files E self "origin/master" w = Ok (modified, added, old_format) w1 ->
  ((exists e, e ∈ modified /\ checked_type E (entry_path e) (Some [SCHEMA_REGEX E]) = true) ->
   validate_committed_files E self w = validate_all_files E self w1
   /\ exists tr,
        trace (final_world (validate_committed_files E self w)) = trace w1 ++ tr
        /\ forallb sweep_event tr = true)
  /\ ((forall e, e ∈ modified -> checked_type E (entry_path e) (Some [SCHEMA_REGEX E]) = false) ->
      validate_committed_files E self w
      = (validate_modified_files E self modified ;;;
         validate_added_files E self added ;;;
         validate_no_old_format E old_format) w1).
Proof.
  intros Hdiff. split.
  - intros Hschema. apply schema_changed_iff in Hschema.
    assert (Hrun : validate_committed_files E self w = validate_all_files E self w1).
    { unfold validate_committed_files. unfold bind at 1. rewrite Hdiff. now rewrite Hschema. }
    split; [exact Hrun|].
    destruct (pass_validate_all_files E self) as (tr & o & Hruns & Hsweep & _).
    exists tr. rewrite Hrun, (runs_final _ _ _ _ Hruns). now split.
  - intros Hnone.
    assert (Hschema : schema_changed_in E (elements modified) = false).
    { apply not_true_is_false. intros H. apply schema_changed_iff in H as (e & He & Hs).
      rewrite (Hnone e He) in Hs. discriminate. }
    unfold validate_committed_files. unfold bind at 1. rewrite Hdiff. now rewrite Hschema.
Qed.

Lemma committed_files_dispatch_witness :
  exists w1,
    validate_committed_files Sample.env Sample.on_schema_branch Sample.start
    = validate_all_files Sample.env Sample.on_schema_branch w1.
Proof.
  eexists.
  eapply (committed_files_dispatch Sample.env Sample.on_schema_branch Sample.start).
  - apply (ok_eta3 (∅, ∅, ∅)). vm_compute. reflexivity.
  - exists (EPath "Tests/schemas/integration.yml"). split; [|reflexivity].
    apply (bool_decide_eq_true_1 _). vm_compute. reflexivity.
Defined.

(** ** The id-set mode of [validate_modified_files] *)

(** The checks [validate_modified_files] runs on one element when
    [validate_id_set] is on. *)
Lemma id_set_checks_of_file E self e :
  validate_id_set self = true ->
  map (fun ca => (fst ca, ca_path (snd ca))) (checks_of (modified_file_trace E self e))
  = if checked_type E (entry_path e) None
    then [(StructureIsFileValid, entry_path e); (IdSetIsFileValidInSet, entry_path e)]
    else [].
Proof.
  intros Hid. unfold modified_file_trace, validate_modified_file.
  rewrite Hid.
  unfold require, call_check, fail_unless, print, print_warning, bind, emit, ret, set_valid.
  simpl.
  destruct (checked_type E (entry_path e) None); simpl; [|reflexivity].
  destruct (run_check E StructureIsFileValid _); simpl;
    destruct (run_check E IdSetIsFileValidInSet _); reflexivity.
Qed.

Lemma checks_of_flat_map {A} (trf : A -> list event) l :
  checks_of (flat_map trf l) = flat_map (fun x => checks_of (trf x)) l.
Proof.
  induction l as [|x l IH]; simpl; [reflexivity|].
  unfold checks_of in *. now rewrite flat_map_app, IH.
Qed.

(** C9: with [validate_id_set] on, [validate_modified_files] returns
    normally and the validator checks it calls are, for each element of the
    modified set that is a content file, the structure check and the id-set
    membership check on its path, and nothing else: none of the type-specific
    checks is called. *)
Theorem id_set_mode_runs_two_checks (E : Env) (self : files_validator)
    (modified : gset entry) (w : world) :
  validate_id_set self = true ->
  exists tr,
    validate_modified_files E self modified w
    = Ok tt (World (replay (is_valid w) tr) (trace w ++ tr))
    /\ map (fun ca => (fst ca, ca_path (snd ca))) (checks_of tr)
       = flat_map
           (fun e =>
              if checked_type E (entry_path e) None
              then [(StructureIsFileValid, entry_path e);
                    (IdSetIsFileValidInSet, entry_path e)]
              else [])
           (elements modified)
    /\ forall c a, In (EvCheck c a) tr ->
                   c = StructureIsFileValid \/ c = IdSetIsFileValidInSet.
Proof.
  intros Hid.
  exists (flat_map (modified_file_trace E self) (elements modified)).
  assert (Hchecks :
    map (fun ca => (fst ca, ca_path (snd ca)))
      (checks_of (flat_map (modified_file_trace E self) (elements modified)))
    = flat_map
        (fun e =>
           if checked_type E (entry_path e) None
           then [(StructureIsFileValid, entry_path e);
                 (IdSetIsFileValidInSet, entry_path e)]
           else [])
        (elements modified)).
  { rewrite checks_of_flat_map.
    induction (elements modified) as [|e l IH]; simpl; [reflexivity|].
    now rewrite map_app, IH, id_set_checks_of_file. }
  split; [apply runs_validate_modified_files|]. split; [exact Hchecks|].
  intros c a Hin.
  assert (Hc : In (c, ca_path a)
                 (map (fun ca => (fst ca, ca_path (snd ca)))
                    (checks_of (flat_map (modified_file_trace E self) (elements modified))))).
  { apply in_map_iff. exists (c, a). split; [reflexivity|].
    unfold checks_of. apply in_flat_map. exists (EvCheck c a). split; [exact Hin|].
    now left. }
  rewrite Hchecks in Hc. apply in_flat_map in Hc as (e & _ & He).
  destruct (checked_type E (entry_path e) None); simpl in He; [|contradiction].
  destruct He as [He|[He|[]]]; injection He as <- _; auto.
Qed.

Lemma id_set_mode_runs_two_checks_witness :
  exists tr,
    validate_modified_files Sample.env
      (FilesValidator "feature" true "origin/master" true false false true true)
      {[EPath "Integrations/Foo/Foo.yml"]} Sample.start
    = Ok tt (World (replay true tr) tr)
    /\ forall c a, In (EvCheck c a) tr ->
                   c = StructureIsFileValid \/ c = IdSetIsFileValidInSet.
Proof.
  destruct (id_set_mode_runs_two_checks Sample.env
              (FilesValidator "feature" true "origin/master" true false false true true)
              {[EPath "Integrations/Foo/Foo.yml"]} Sample.start eq_refl)
    as (tr & Hrun & _ & Honly).
  exists tr. split; [exact Hrun|exact Honly].
Defined.

(** ** The reconciliation of the three diffs *)

Lemma bind_run_cmd {B} E cmd (k : string -> M B) w :
  bind (run_cmd E cmd) k w = k (run_command E cmd) (after_command cmd w).
Proof. reflexivity. Qed.

Lemma bind_ok {A B} (m : M A) (k : A -> M B) w a w' :
  m w = Ok a w' -> bind m k w = k a w'.
Proof. intros H. unfold bind. now rewrite H. Qed.

(** C1: outside CI ([is_circle] false), when the three classifications
    return, [get_modified_and_added_files] returns the reconciled sets:
    old-format is the union of the tag-vs-branch and the working-tree
    old-format sets; modified is the tag-vs-branch modified set with the
    direct-diff files also modified in the working tree, minus the files
    deleted in the working tree; added is the tag-vs-branch added set with
    the direct-diff files also added in the working tree, minus the files
    modified or deleted in the working tree.  A file deleted in the working
    tree and modified against the tag is not in the final modified set. *)
Theorem reconciled_sets_outside_ci (E : Env) (self : files_validator) (tag : string)
    (w : world)
    (mA : gset entry) (aA dA oA : gset string) (wA : world)
    (mW : gset entry) (aW dW oW : gset string) (wW : world)
    (mT : gset entry) (aT dT oT : gset string) (wT : world) :
  is_circle self = false ->
  let cmdA := "git diff --name-status " +:+ tag +:+ ".."
              +:+ (if PyStr.contains "master" tag then "." else "")
              +:+ "refs/heads/" +:+ branch_name self in
  let cmdW := "git diff --name-status --no-merges HEAD" in
  let cmdT := "git diff --name-status " +:+ tag in
  get_modified_files E (run_command E cmdA) tag (print_ignored_files self)
    (after_command cmdA w) = Ok (mA, aA, dA, oA) wA ->
  get_modified_files E (run_command E cmdW) "master" (print_ignored_files self)
    (after_command cmdW wA) = Ok (mW, aW, dW, oW) wW ->
  get_modified_files E (run_command E cmdT) "master" (print_ignored_files self)
    (after_command cmdT wW) = Ok (mT, aT, dT, oT) wT ->
  exists modified added old_format,
    get_modified_and_added_files E self tag w = Ok (modified, added, old_format) wT
    /\ old_format = oA ∪ oW
    /\ modified = (mA ∪ (mT ∩ mW)) ∖ set_map EPath dW
    /\ (forall e, e ∈ modified
                  <-> ((e ∈ mA \/ (e ∈ mT /\ e ∈ mW)) /\ (forall p, p ∈ dW -> e ≠ EPath p)))
    /\ (forall p, p ∈ added
                  <-> ((p ∈ aA \/ (p ∈ aT /\ p ∈ aW)) /\ (EPath p ∉ mW) /\ (p ∉ dW)))
    /\ (forall p, p ∈ dW -> EPath p ∈ mA -> EPath p ∉ modified).
Proof.
  intros Hci cmdA cmdW cmdT HA HW HT.
  exists ((mA ∪ (mT ∩ mW)) ∖ set_map EPath dW),
         (filter (fun p => EPath p ∉ mW) (aA ∪ (aT ∩ aW)) ∖ dW),
         (oA ∪ oW).
  split.
  { unfold after_command in HA, HW, HT. subst cmdA cmdW cmdT.
    unfold get_modified_and_added_files, run_cmd, bind, emit, ret. cbv zeta beta.
    rewrite HA. rewrite Hci. cbn [negb]. cbv iota.
    rewrite HW. rewrite HT.
    reflexivity. }
  split; [reflexivity|]. split; [reflexivity|].
  split; [|split].
  - intros e. rewrite elem_of_difference, elem_of_union, elem_of_intersection.
    rewrite elem_of_map. split.
    + intros [Hin Hdel]. split; [exact Hin|].
      intros p Hp ->. apply Hdel. now exists p.
    + intros [Hin Hdel]. split; [exact Hin|].
      intros (p & -> & Hp). now apply (Hdel p).
  - intros p. rewrite elem_of_difference, elem_of_filter, elem_of_union, elem_of_intersection.
    tauto.
  - intros p Hp _. rewrite elem_of_difference, elem_of_map.
    intros [_ Hdel]. apply Hdel. now exists p.
Qed.

Lemma reconciled_sets_outside_ci_witness :
  exists modified added old_format w',
    get_modified_and_added_files Sample.env Sample.on_feature "origin/master" Sample.start
    = Ok (modified, added, old_format) w'
    /\ (EPath "Scripts/Gone/Gone.yml" ∉ modified)
    /\ (EPath "Integrations/Local/Local.yml" ∈ modified)
    /\ ("Scripts/Touched/Touched.yml" ∉ added).
Proof.
  epose proof
    (reconciled_sets_outside_ci Sample.env Sample.on_feature "origin/master" Sample.start)
    as Hrec.
  cbv zeta in Hrec.
  edestruct Hrec as (modified & added & old_format & Hrun & _ & _ & Hmod & Hadd & Hgone);
    [reflexivity | apply (ok_eta4 (∅, ∅, ∅, ∅)); vm_compute; reflexivity .. |].
  exists modified, added, old_format. eexists. split; [exact Hrun|].
  split; [|split].
  - apply Hgone; apply (bool_decide_eq_true_1 _); vm_compute; reflexivity.
  - apply Hmod. split.
    + right. split; apply (bool_decide_eq_true_1 _); vm_compute; reflexivity.
    + intros p Hp Heq. injection Heq as <-. revert Hp.
      apply (bool_decide_eq_false_1 _). vm_compute. reflexivity.
  - intros H. apply Hadd in H as (_ & Hnot & _). apply Hnot.
    apply (bool_decide_eq_true_1 _). vm_compute. reflexivity.
Defined.

(** ** The classification of one diff record *)

Ltac split_conditions :=
  repeat match goal with
    | H : (_ && _) = true |- _ => apply andb_true_iff in H as [? ?]
    | H : negb _ = true |- _ => apply negb_true_iff in H
    end.

Ltac break_run H :=
  repeat (first
    [ discriminate
    | match type of H with
      | context [match ?x with _ => _ end] => destruct x eqn:?
      end ]; cbv beta iota in H).

(** The cascade changes at most one of the four sets, by one element; what
    its [a] and [d] arms put in is never a hidden path. *)
Lemma route_record_cases E pif acc file_data file_status file_path w acc' w' :
  route_record E pif acc file_data file_status file_path w = Ok acc' w' ->
  acc' = acc
  \/ (exists e, acc' = add_modified e acc)
  \/ (exists p, acc' = add_added p acc /\ hidden p = false)
  \/ (exists p, acc' = add_deleted p acc /\ hidden p = false)
  \/ (exists p, acc' = add_old_format p acc).
Proof.
  intros H.
  unfold route_record, py_index, bind, ret, raise, emit, print_error, print_warning in H.
  cbv zeta in H.
  break_run H.
  all: injection H as <- <-; split_conditions; unfold hidden; eauto 10.
Qed.

(** One diff record changes at most one of the four sets, by one element. *)
Lemma classify_record_cases E pif acc f w acc' w' :
  classify_record E pif acc f w = Ok acc' w' ->
  acc' = acc
  \/ (exists e, acc' = add_modified e acc)
  \/ (exists p, acc' = add_added p acc /\ hidden p = false)
  \/ (exists p, acc' = add_deleted p acc /\ hidden p = false)
  \/ (exists p, acc' = add_old_format p acc).
Proof.
  intros H.
  unfold classify_record, py_index, bind, ret, raise in H.
  cbv zeta in H.
  break_run H.
  all: first [ now apply route_record_cases in H
             | injection H as <- <-; now left ].
Qed.

(** A rename record whose new path is a code file: the cascade, entered with
    status [r] and the sibling definition path, leaves the sets alone, or
    puts the sibling path in the modified set, or in the old-format set. *)
Lemma route_renamed_code E pif acc status old_path new_path yml w acc' w' :
  checked_type E new_path (Some (CODE_FILES_REGEX E)) = true ->
  route_record E pif acc [status; old_path; new_path] "r" yml w = Ok acc' w' ->
  acc' = acc \/ acc' = add_modified (EPath yml) acc \/ acc' = add_old_format yml acc.
Proof.
  intros Hcode H.
  unfold route_record, py_index, bind, ret, raise, emit, print_error, print_warning in H.
  cbv beta iota zeta delta [nth_error] in H. rewrite Hcode in H.
  break_run H.
  all: injection H as <- <-; auto.
Qed.

Lemma classify_renamed_code E pif acc line status old_path new_path w :
  PyStr.split_ws line = [status; old_path; new_path] ->
  PyStr.startswith (PyStr.lower status) "r" = true ->
  checked_type E new_path (Some (CODE_FILES_REGEX E)) = true ->
  PyStr.endswith new_path "_test.py" = false ->
  classify_record E pif acc line w
  = route_record E pif acc [status; old_path; new_path] "r"
      (fst (PyStr.splitext new_path) +:+ ".yml") w.
Proof.
  intros Hsplit Hr Hcode Htest.
  unfold classify_record. rewrite Hsplit. cbv zeta.
  unfold py_index, bind, ret. cbv beta iota delta [nth_error].
  rewrite Hr. cbv beta iota delta [fst snd].
  rewrite Hcode, Htest. reflexivity.
Qed.

(** A rename record whose new path is a code file, by what the old-format
    test of line 107 answers for the sibling definition path. *)
Lemma route_renamed_code_exact E pif acc status old_path new_path yml w :
  checked_type E new_path (Some (CODE_FILES_REGEX E)) = true ->
  match (if checked_type E yml (Some (OLD_YML_FORMAT_FILE E))
         then _is_py_script_or_integration E yml else ret false) w with
  | Ok true w1 =>
      route_record E pif acc [status; old_path; new_path] "r" yml w
      = Ok (add_old_format yml acc) w1
  | Ok false w1 =>
      if recognised E yml
      then route_record E pif acc [status; old_path; new_path] "r" yml w
           = Ok (add_modified (EPath yml) acc) w1
      else exists w2,
           route_record E pif acc [status; old_path; new_path] "r" yml w = Ok acc w2
  | Raise e w1 =>
      route_record E pif acc [status; old_path; new_path] "r" yml w = Raise e w1
  end.
Proof.
  intros Hcode.
  unfold route_record, recognised, py_index, bind, ret.
  cbv beta iota zeta delta [nth_error]. rewrite Hcode.
  change (str_in (PyStr.lower "r") ["m"; "a"; "r"]) with true.
  cbv beta iota delta [andb].
  destruct ((if checked_type E yml (Some (OLD_YML_FORMAT_FILE E))
             then _is_py_script_or_integration E yml else fun w0 => Ok false w0) w)
    as [[|] w1|e w1]; [reflexivity| |reflexivity].
  change (String.eqb (PyStr.lower "r") "m") with false.
  change (String.eqb (PyStr.lower "r") "a") with false.
  change (String.eqb (PyStr.lower "r") "d") with false.
  change (PyStr.startswith (PyStr.lower "r") "r") with true.
  cbv beta iota delta [andb orb].
  destruct (checked_type E yml None); [reflexivity|].
  destruct (checked_type E yml (Some [SCHEMA_REGEX E])); [reflexivity|].
  unfold print_error, print_warning, emit.
  destruct (negb (str_in (PyStr.lower "r") (KNOWN_FILE_STATUSES E))); [eauto|].
  destruct pif; [|eauto].
  destruct (negb (checked_type E yml (Some (IGNORED_TYPES_REGEXES E)))); eauto.
Qed.

(** C5, as the code has it: a rename record whose new path is a code file,
    and no test file, never puts an [(old_path, new_path)] tuple in the
    modified set, and puts at most one entry there, the sibling definition
    path (the new path with its extension replaced by [.yml]); the added and
    deleted sets are left alone.  The record adds exactly that entry when
    the sibling path is not sent to the old-format set as a legacy python
    file (line 107) and is a checked content path or a schema; a legacy
    python sibling goes to the old-format set and an unrecognised one
    nowhere.  A diff of one such record hands the packagify filter the
    modified set with that single entry. *)
Theorem renamed_code_file_single_entry (E : Env) (pif : bool) (acc : file_sets)
    (line status old_path new_path : string) (w : world) :
  PyStr.split_ws line = [status; old_path; new_path] ->
  PyStr.startswith (PyStr.lower status) "r" = true ->
  checked_type E new_path (Some (CODE_FILES_REGEX E)) = true ->
  PyStr.endswith new_path "_test.py" = false ->
  let yml := fst (PyStr.splitext new_path) +:+ ".yml" in
  let legacy_python :=
    if checked_type E yml (Some (OLD_YML_FORMAT_FILE E))
    then _is_py_script_or_integration E yml else ret false in
  (forall acc' w',
     classify_record E pif acc line w = Ok acc' w' ->
     (modified_files_list acc' = modified_files_list acc
      \/ modified_files_list acc' = {[EPath yml]} ∪ modified_files_list acc)
     /\ added_files_list acc' = added_files_list acc
     /\ deleted_files acc' = deleted_files acc)
  /\ (forall w1,
        legacy_python w = Ok false w1 ->
        recognised E yml = true ->
        classify_record E pif acc line w = Ok (add_modified (EPath yml) acc) w1
        /\ forall tag,
             PyStr.split_on "010" line = [line] ->
             get_modified_files E line tag pif w
             = Ok (let '(modified, added, deleted) :=
                     filter_packagify_changes E {[EPath yml]} ∅ ∅ tag in
                   (modified, added, deleted, ∅)) w1)
  /\ (forall w1,
        legacy_python w = Ok true w1 ->
        classify_record E pif acc line w = Ok (add_old_format yml acc) w1)
  /\ (forall w1,
        legacy_python w = Ok false w1 ->
        recognised E yml = false ->
        exists w2, classify_record E pif acc line w = Ok acc w2).
Proof.
  intros Hsplit Hr Hcode Htest yml legacy_python.
  assert (Hroute : forall acc0,
             classify_record E pif acc0 line w
             = route_record E pif acc0 [status; old_path; new_path] "r" yml w).
  { intros acc0.
    exact (classify_renamed_code E pif acc0 line status old_path new_path w
             Hsplit Hr Hcode Htest). }
  assert (Hexact := fun acc0 =>
            route_renamed_code_exact E pif acc0 status old_path new_path yml w Hcode).
  fold legacy_python in Hexact.
  split; [|split; [|split]].
  - intros acc' w' H. rewrite Hroute in H.
    apply route_renamed_code in H; [|exact Hcode].
    destruct H as [->|[->| ->]]; simpl; auto.
  - intros w1 Hleg Hrec.
    assert (Hcl : forall acc0,
               classify_record E pif acc0 line w = Ok (add_modified (EPath yml) acc0) w1).
    { intros acc0. specialize (Hexact acc0). rewrite Hleg, Hrec in Hexact.
      now rewrite Hroute. }
    split; [apply Hcl|].
    intros tag Hline. unfold get_modified_files, classify_diff. rewrite Hline.
    simpl fold_each. unfold bind at 1 2. rewrite Hcl. unfold ret at 1. cbv beta iota.
    unfold add_modified, no_files. simpl.
    rewrite (right_id_L ∅ (∪)).
    destruct (filter_packagify_changes E _ _ _ _) as [[m a] d]. reflexivity.
  - intros w1 Hleg. specialize (Hexact acc). rewrite Hleg in Hexact.
    now rewrite Hroute.
  - intros w1 Hleg Hrec. specialize (Hexact acc). rewrite Hleg, Hrec in Hexact.
    destruct Hexact as [w2 Hw2]. exists w2. now rewrite Hroute.
Qed.

Lemma renamed_code_file_single_entry_witness :
  classify_record Sample.env false no_files
    ("R100" +:+ tab +:+ "Integrations/Foo/Old.py" +:+ tab +:+ "Integrations/Foo/Foo.py")
    Sample.start
  = Ok (add_modified (EPath "Integrations/Foo/Foo.yml") no_files) Sample.start.
Proof.
  refine (proj1 (proj1 (proj2
    (renamed_code_file_single_entry Sample.env false no_files
       ("R100" +:+ tab +:+ "Integrations/Foo/Old.py" +:+ tab +:+ "Integrations/Foo/Foo.py")
       "R100" "Integrations/Foo/Old.py" "Integrations/Foo/Foo.py" Sample.start
       _ _ _ _)) Sample.start _ _)); reflexivity.
Defined.

(** C5 as stated fails: the record of a renamed code file whose sibling
    definition path is a legacy python integration meets the conditions of
    the claim, and the old-format arm of line 107, which comes before the
    rename arm of line 116, takes the sibling path: the modified set stays
    empty. *)
Lemma renamed_legacy_code_file_not_modified :
  let line := "R100" +:+ tab +:+ "Integrations/Old.py" +:+ tab
              +:+ "Integrations/integration-PyFoo.py" in
  PyStr.split_ws line = ["R100"; "Integrations/Old.py"; "Integrations/integration-PyFoo.py"]
  /\ PyStr.startswith (PyStr.lower "R100") "r" = true
  /\ checked_type Sample.env "Integrations/integration-PyFoo.py"
       (Some (CODE_FILES_REGEX Sample.env)) = true
  /\ PyStr.endswith "Integrations/integration-PyFoo.py" "_test.py" = false
  /\ exists modified added deleted old_format w',
       get_modified_files Sample.env line "master" false Sample.start
       = Ok (modified, added, deleted, old_format) w'
       /\ elements modified = []
       /\ "Integrations/integration-PyFoo.yml" ∈ old_format.
Proof.
  cbv zeta. repeat split; try reflexivity.
  do 5 eexists. split; [|split].
  - apply (ok_eta4 (∅, ∅, ∅, ∅)). vm_compute. reflexivity.
  - vm_compute. reflexivity.
  - apply (bool_decide_eq_true_1 _). vm_compute. reflexivity.
Qed.

(** ** Hidden paths *)














(** ** Disjointness of the four sets *)






















(** ** Further properties of the classification *)

Lemma classify_blank E pif acc line w :
  PyStr.split_ws line = [] -> classify_record E pif acc line w = Ok acc w.
Proof. intros H. unfold classify_record. now rewrite H. Qed.

Lemma fold_blank E pif l acc w :
  (forall line, In line l -> PyStr.split_ws line = []) ->
  fold_each l (classify_record E pif) acc w = Ok acc w.
Proof.
  induction l as [|line l IH]; intros Hblank; [reflexivity|].
  simpl. unfold bind. rewrite classify_blank by (apply Hblank; now left).
  apply IH. intros ? ?. apply Hblank. now right.
Qed.

(** X1: a diff whose lines are all empty or white space classifies nothing:
    the packagify filter is handed three empty sets, the old-format set is
    empty, and nothing is read or printed. *)
Theorem blank_diff_classifies_nothing (E : Env) (files_string tag : string) (pif : bool)
    (w : world) :
  (forall line, In line (PyStr.split_on "010" files_string) -> PyStr.split_ws line = []) ->
  get_modified_files E files_string tag pif w
  = Ok (let '(modified, added, deleted) := filter_packagify_changes E ∅ ∅ ∅ tag in
        (modified, added, deleted, ∅)) w.
Proof.
  intros Hblank. unfold get_modified_files, classify_diff, bind.
  rewrite (fold_blank E pif _ no_files w Hblank). simpl.
  destruct (filter_packagify_changes E ∅ ∅ ∅ tag) as [[m a] d]. reflexivity.
Qed.

Lemma blank_diff_classifies_nothing_witness :
  get_modified_files Sample.env (newline +:+ " " +:+ tab +:+ newline) "master" false Sample.start
  = Ok (∅, ∅, ∅, ∅) Sample.start.
Proof.
  apply (blank_diff_classifies_nothing Sample.env (newline +:+ " " +:+ tab +:+ newline)
           "master" false Sample.start).
  intros line [<-|[<-|[<-|[]]]]; reflexivity.
Defined.

(** X2: a diff line that holds a status and no path, or a rename status and
    only one path, raises [IndexError] ([file_data[1]], [file_data[2]]), and
    when it is the first line of the diff [get_modified_files] raises with
    nothing classified. *)
Theorem short_record_raises (E : Env) (pif : bool) (tag files_string line : string)
    (rest : list string) (acc : file_sets) (w : world) :
  PyStr.split_on "010" files_string = line :: rest ->
  (exists status, PyStr.split_ws line = [status])
  \/ (exists status p,
        PyStr.split_ws line = [status; p]
        /\ PyStr.startswith (PyStr.lower status) "r" = true) ->
  classify_record E pif acc line w = Raise IndexError w
  /\ get_modified_files E files_string tag pif w = Raise IndexError w.
Proof.
  intros Hlines Hshort.
  assert (Hrec : forall acc0, classify_record E pif acc0 line w = Raise IndexError w).
  { intros acc0. unfold classify_record.
    destruct Hshort as [(status & ->)|(status & p & -> & Hr)].
    - reflexivity.
    - unfold py_index, bind, ret, raise. cbv beta iota delta [nth_error].
      now rewrite Hr. }
  split; [apply Hrec|].
  unfold get_modified_files, classify_diff. rewrite Hlines. simpl fold_each.
  unfold bind. now rewrite Hrec.
Qed.

Lemma short_record_raises_witness :
  get_modified_files Sample.env ("R100" +:+ tab +:+ "Scripts/Foo/Foo.yml") "master" false
    Sample.start
  = Raise IndexError Sample.start.
Proof.
  apply (short_record_raises Sample.env false "master"
           ("R100" +:+ tab +:+ "Scripts/Foo/Foo.yml")
           ("R100" +:+ tab +:+ "Scripts/Foo/Foo.yml") [] no_files Sample.start).
  - reflexivity.
  - right. exists "R100", "Scripts/Foo/Foo.yml". split; reflexivity.
Defined.

Lemma startswith_py_of_test x :
  PyStr.startswith x "yp.tset_" = true -> PyStr.startswith x "yp." = true.
Proof.
  destruct x as [|c1 [|c2 [|c3 x]]]; cbn [PyStr.startswith]; intros H;
    repeat match type of H with
      | context [Ascii.eqb ?a ?b] => destruct (Ascii.eqb a b)
      end;
    try discriminate H; now destruct x.
Qed.

Lemma endswith_py_of_test p :
  PyStr.endswith p "_test.py" = true -> PyStr.endswith p ".py" = true.
Proof. unfold PyStr.endswith. apply startswith_py_of_test. Qed.

(** X3: test files and deleted code files are never classified.  A record
    that is no rename and whose path ends in [_test.py], or whose status is
    [d] and whose path ends in [.py] or [.js], leaves the four sets as they
    are and reads and prints nothing; so does a rename whose new path ends
    in [_test.py]. *)
Theorem test_and_deleted_code_files_skipped (E : Env) (pif : bool) (acc : file_sets)
    (w : world) :
  (forall line status p rest,
     PyStr.split_ws line = status :: p :: rest ->
     PyStr.startswith (PyStr.lower status) "r" = false ->
     PyStr.endswith p "_test.py" = true
     \/ (PyStr.lower status = "d"
         /\ (PyStr.endswith p ".py" = true \/ PyStr.endswith p ".js" = true)) ->
     classify_record E pif acc line w = Ok acc w)
  /\ (forall line status old_path p rest,
        PyStr.split_ws line = status :: old_path :: p :: rest ->
        PyStr.startswith (PyStr.lower status) "r" = true ->
        PyStr.endswith p "_test.py" = true ->
        classify_record E pif acc line w = Ok acc w).
Proof.
  split.
  - intros line status p rest Hsplit Hr Hskip.
    unfold classify_record. rewrite Hsplit.
    unfold py_index, bind, ret. cbv beta iota zeta delta [nth_error].
    rewrite Hr. cbv beta iota delta [fst snd].
    destruct Hskip as [Htest|[Hd Hext]].
    + rewrite Htest, (endswith_py_of_test p Htest).
      rewrite !andb_false_r, orb_true_r. reflexivity.
    + rewrite Hd. simpl String.eqb. rewrite andb_false_r. simpl andb.
      destruct Hext as [-> | ->]; [now rewrite orb_true_r|reflexivity].
  - intros line status old_path p rest Hsplit Hr Htest.
    unfold classify_record. rewrite Hsplit.
    unfold py_index, bind, ret. cbv beta iota zeta delta [nth_error].
    rewrite Hr. cbv beta iota delta [fst snd].
    rewrite Htest, (endswith_py_of_test p Htest).
    rewrite !andb_false_r, orb_true_r. reflexivity.
Qed.

Lemma test_and_deleted_code_files_skipped_witness :
  classify_record Sample.env false no_files
    ("D" +:+ tab +:+ "Integrations/Foo/Foo.py") Sample.start
  = Ok no_files Sample.start
  /\ classify_record Sample.env false no_files
       ("R090" +:+ tab +:+ "Scripts/Foo/Foo.py" +:+ tab +:+ "Scripts/Foo/Foo_test.py")
       Sample.start
     = Ok no_files Sample.start.
Proof.
  destruct (test_and_deleted_code_files_skipped Sample.env false no_files Sample.start)
    as [Hplain Hrename].
  split.
  - apply (Hplain _ "D" "Integrations/Foo/Foo.py" []); [reflexivity|reflexivity|].
    right. split; [reflexivity|]. now left.
  - apply (Hrename _ "R090" "Scripts/Foo/Foo.py" "Scripts/Foo/Foo_test.py" []); reflexivity.
Defined.

(** X4: the schema arm of the cascade asks for no status.  A record that is
    no rename, whose path matches the schema pattern and is neither a code
    file, a checked content path nor a legacy unified file, is put in the
    modified set whatever its status: also when the file was deleted and
    when the status is unknown. *)
Theorem schema_arm_takes_any_status (E : Env) (pif : bool) (acc : file_sets)
    (line status p : string) (rest : list string) (w : world) :
  PyStr.split_ws line = status :: p :: rest ->
  PyStr.startswith (PyStr.lower status) "r" = false ->
  checked_type E p (Some (CODE_FILES_REGEX E)) = false ->
  PyStr.endswith p ".js" || PyStr.endswith p ".py" = false ->
  checked_type E p None = false ->
  checked_type E p (Some (OLD_YML_FORMAT_FILE E)) = false ->
  checked_type E p (Some [SCHEMA_REGEX E]) = true ->
  classify_record E pif acc line w = Ok (add_modified (EPath p) acc) w.
Proof.
  intros Hsplit Hr Hcode Hext Hnone Hold Hschema.
  unfold classify_record. rewrite Hsplit.
  unfold py_index, bind, ret. cbv beta iota zeta delta [nth_error].
  rewrite Hr. cbv beta iota delta [fst snd].
  rewrite Hcode, Hext. cbv beta iota delta [andb].
  unfold route_record, bind, ret. cbv beta iota zeta.
  rewrite Hold, Hnone, Hschema, Hr, !andb_false_r. reflexivity.
Qed.

Lemma schema_arm_takes_any_status_witness :
  classify_record Sample.env false no_files
    ("D" +:+ tab +:+ "Tests/schemas/integration.yml") Sample.start
  = Ok (add_modified (EPath "Tests/schemas/integration.yml") no_files) Sample.start.
Proof.
  apply (schema_arm_takes_any_status Sample.env false no_files
           ("D" +:+ tab +:+ "Tests/schemas/integration.yml")
           "D" "Tests/schemas/integration.yml" [] Sample.start); reflexivity.
Defined.

Lemma sets_included_refl acc : sets_included acc acc.
Proof. unfold sets_included. repeat split; reflexivity. Qed.

Lemma sets_included_trans a b c :
  sets_included a b -> sets_included b c -> sets_included a c.
Proof.
  unfold sets_included. intros (?&?&?&?) (?&?&?&?).
  repeat split; etransitivity; eassumption.
Qed.

Lemma classify_record_grows E pif acc f w acc' w' :
  classify_record E pif acc f w = Ok acc' w' ->
  sets_included acc acc' /\ (guarded_sets_visible acc -> guarded_sets_visible acc').
Proof.
  intros H. apply classify_record_cases in H.
  destruct H as [->|[(e & ->)|[(p & -> & Hp)|[(p & -> & Hp)|(p & ->)]]]].
  - split; [apply sets_included_refl|auto].
  - split; [|auto]. unfold sets_included, add_modified; simpl.
    repeat split; try reflexivity. apply union_subseteq_r.
  - split.
    + unfold sets_included, add_added; simpl.
      repeat split; try reflexivity. apply union_subseteq_r.
    + intros [Ha Hd]. split; [|exact Hd]. simpl. intros q Hq.
      apply elem_of_union in Hq as [Hq|Hq]; [|now apply Ha].
      apply elem_of_singleton in Hq. now subst q.
  - split.
    + unfold sets_included, add_deleted; simpl.
      repeat split; try reflexivity. apply union_subseteq_r.
    + intros [Ha Hd]. split; [exact Ha|]. simpl. intros q Hq.
      apply elem_of_union in Hq as [Hq|Hq]; [|now apply Hd].
      apply elem_of_singleton in Hq. now subst q.
  - split; [|auto]. unfold sets_included, add_old_format; simpl.
    repeat split; try reflexivity. apply union_subseteq_r.
Qed.

Lemma classify_fold_grows E pif l acc w acc' w' :
  fold_each l (classify_record E pif) acc w = Ok acc' w' ->
  sets_included acc acc' /\ (guarded_sets_visible acc -> guarded_sets_visible acc').
Proof.
  revert acc w. induction l as [|f l IH]; intros acc w H; simpl in H.
  - injection H as <- _. split; [apply sets_included_refl|auto].
  - unfold bind in H.
    destruct (classify_record E pif acc f w) as [acc1 w1|e w1] eqn:Hrec; [|discriminate].
    apply classify_record_grows in Hrec as [Hinc1 Hvis1].
    apply IH in H as [Hinc2 Hvis2].
    split; [eapply sets_included_trans; eassumption|auto].
Qed.

(** X5: the classification loop only ever adds.  Whatever the four sets
    hold before a run of diff lines they still hold after it, so a later
    line never takes back what an earlier line put in a set. *)
Theorem classification_only_adds (E : Env) (pif : bool) (l : list string)
    (acc : file_sets) (w : world) (acc' : file_sets) (w' : world) :
  fold_each l (classify_record E pif) acc w = Ok acc' w' ->
  sets_included acc acc'.
Proof. intros H. now apply classify_fold_grows in H as [? _]. Qed.

Lemma classification_only_adds_witness :
  exists acc' w',
    fold_each [ "D" +:+ tab +:+ "Scripts/Foo/Foo.yml" ] (classify_record Sample.env false)
      (add_modified (EPath "Scripts/Foo/Foo.yml") no_files) Sample.start
    = Ok acc' w'
    /\ sets_included (add_modified (EPath "Scripts/Foo/Foo.yml") no_files) acc'.
Proof.
  pose proof (ok_eta no_files
                (fold_each [ "D" +:+ tab +:+ "Scripts/Foo/Foo.yml" ]
                   (classify_record Sample.env false)
                   (add_modified (EPath "Scripts/Foo/Foo.yml") no_files) Sample.start))
    as Hrun.
  specialize (Hrun ltac:(vm_compute; reflexivity)).
  do 2 eexists. split; [exact Hrun|].
  exact (classification_only_adds _ _ _ _ _ _ _ Hrun).
Defined.

(** X6: the guards of the [a] and [d] arms hold for the whole diff: no path
    that starts with a dot is in the added or in the deleted set that the
    loop of [get_modified_files] builds (the sets handed to the packagify
    filter). *)
Theorem added_and_deleted_never_hidden (E : Env) (files_string : string) (pif : bool)
    (w : world) (acc : file_sets) (w' : world) :
  classify_diff E files_string pif w = Ok acc w' ->
  (forall p, p ∈ added_files_list acc -> hidden p = false)
  /\ (forall p, p ∈ deleted_files acc -> hidden p = false).
Proof.
  intros H. unfold classify_diff in H.
  apply classify_fold_grows in H as [_ Hvis]. apply Hvis.
  split; intros p Hp; simpl in Hp; now apply elem_of_empty in Hp.
Qed.

Lemma added_and_deleted_never_hidden_witness :
  exists acc w',
    classify_diff Sample.env
      (Sample.lines [Sample.line "A" "./Scripts/Foo/Foo.yml";
                     Sample.line "A" "Scripts/Bar/Bar.yml"])
      false Sample.start
    = Ok acc w'
    /\ (forall p, p ∈ added_files_list acc -> hidden p = false)
    /\ ("Scripts/Bar/Bar.yml" ∈ added_files_list acc).
Proof.
  pose proof (ok_eta no_files
                (classify_diff Sample.env
                   (Sample.lines [Sample.line "A" "./Scripts/Foo/Foo.yml";
                                  Sample.line "A" "Scripts/Bar/Bar.yml"])
                   false Sample.start)) as Hrun.
  specialize (Hrun ltac:(vm_compute; reflexivity)).
  do 2 eexists. split; [exact Hrun|]. split.
  - exact (proj1 (added_and_deleted_never_hidden _ _ _ _ _ _ Hrun)).
  - apply (bool_decide_eq_true_1 _). vm_compute. reflexivity.
Defined.

Lemma startswith_nil x : PyStr.startswith x "" = true.
Proof. now destruct x. Qed.

Lemma rfind_from_lower c s i found :
  (-1 <= found)%Z -> (0 <= i)%Z -> (-1 <= PyStr.rfind_from c s i found)%Z.
Proof.
  revert i found. induction s as [|a s IH]; intros i found Hf Hi; simpl; [exact Hf|].
  apply IH; [destruct (Ascii.eqb a c); lia|lia].
Qed.

Lemma hidden_head c x y : hidden (String c x) = hidden (String c y).
Proof.
  unfold hidden. cbn [PyStr.startswith].
  destruct (Ascii.eqb "." c); [now rewrite !startswith_nil|reflexivity].
Qed.

(** X7: replacing the extension of a code file by [.yml] keeps its first
    character: the definition path of a code file is hidden exactly when the
    code file's own path is. *)
Theorem sibling_yml_keeps_visibility (p : string) :
  p <> "" -> hidden (sibling_yml p) = hidden p.
Proof.
  intros Hp. destruct p as [|c r]; [contradiction|].
  unfold sibling_yml, PyStr.splitext.
  set (sep := PyStr.rfind "/" (String c r)).
  set (dot := PyStr.rfind "." (String c r)).
  assert (Hsep : (-1 <= sep)%Z) by (apply rfind_from_lower; lia).
  destruct (sep <? dot)%Z eqn:Hlt; [|apply hidden_head].
  destruct (PyStr.has_non_dot _ _ _) eqn:Hnd; [|apply hidden_head].
  cbn [fst]. unfold PyStr.slice_to.
  destruct (Z.to_nat dot) as [|k] eqn:Hk.
  - assert (Hzero : Z.to_nat (dot - (sep + 1)) = 0%nat) by lia.
    rewrite Hzero in Hnd. discriminate.
  - cbn [substring]. apply hidden_head.
Qed.

Lemma sibling_yml_keeps_visibility_witness :
  hidden (sibling_yml "./Integrations/Foo/Foo.py") = true
  /\ hidden (sibling_yml "Integrations/Foo/Foo.py") = false.
Proof.
  split.
  - now rewrite (sibling_yml_keeps_visibility "./Integrations/Foo/Foo.py").
  - now rewrite (sibling_yml_keeps_visibility "Integrations/Foo/Foo.py").
Defined.

(** ** The diff collection and the outside world *)

Lemma classification_is_collection ev :
  classification_event ev = true -> collection_event ev = true.
Proof. destruct ev; simpl; intros H; try reflexivity; discriminate. Qed.

Lemma classification_is_no_git ev :
  classification_event ev = true -> no_git_event ev = true.
Proof. destruct ev; simpl; intros H; try reflexivity; discriminate. Qed.

Lemma classification_is_quiet ev :
  classification_event ev = true -> no_assign ev = true.
Proof. destruct ev; simpl; intros H; try reflexivity; discriminate. Qed.

Lemma pass_classification E files_string tag pif :
  pass false classification_event (get_modified_files E files_string tag pif).
Proof.
  unfold get_modified_files, classify_diff. apply pass_bind.
  - apply pass_fold_each. intros acc f.
    unfold classify_record, route_record, _is_py_script_or_integration, load_yaml.
    pass_auto.
  - intros acc. pass_auto.
Qed.

Lemma pass_collection E self tag :
  pass false collection_event (get_modified_and_added_files E self tag).
Proof.
  unfold get_modified_and_added_files, run_cmd.
  repeat first
    [ apply (pass_events false classification_event collection_event);
        [exact classification_is_collection|apply pass_classification]
    | pass_step ].
Qed.

(** X8: collecting the changeset is a read-only step of the run.  Whatever
    git reports and whether or not the classification raises,
    [get_modified_and_added_files] leaves the verdict as it was, and all it
    does to the outside is run git commands, read YAML documents and print
    diagnostics: no validator check is called. *)
Theorem diff_collection_is_read_only (E : Env) (self : files_validator) (tag : string)
    (w : world) :
  exists tr,
    trace (final_world (get_modified_and_added_files E self tag w)) = trace w ++ tr
    /\ forallb collection_event tr = true
    /\ checks_of tr = []
    /\ is_valid (final_world (get_modified_and_added_files E self tag w)) = is_valid w.
Proof.
  destruct (pass_collection E self tag) as (tr & o & Hruns & Hev & _).
  exists tr. rewrite (runs_final _ _ _ w Hruns). simpl.
  split; [reflexivity|]. split; [exact Hev|]. split.
  - clear Hruns. induction tr as [|ev tr IH]; [reflexivity|].
    simpl in Hev. apply andb_true_iff in Hev as [Hev Htr].
    unfold checks_of in *. simpl. rewrite (IH Htr).
    destruct ev; try reflexivity; discriminate.
  - apply replay_no_assign.
    apply (forallb_weaken collection_event); [|exact Hev].
    intros ev H. destruct ev; simpl in *; try reflexivity; discriminate.
Qed.

(** X9: in CI ([is_circle] true) the changeset is the tag-vs-branch diff
    alone: when its classification returns, [get_modified_and_added_files]
    returns its modified, added and old-format sets as they are, and the one
    git command of the call is that diff; the working tree is not asked. *)
Theorem ci_mode_uses_one_diff (E : Env) (self : files_validator) (tag : string) (w : world)
    (mA : gset entry) (aA dA oA : gset string) (wA : world) :
  is_circle self = true ->
  let cmdA := "git diff --name-status " +:+ tag +:+ ".."
              +:+ (if PyStr.contains "master" tag then "." else "")
              +:+ "refs/heads/" +:+ branch_name self in
  get_modified_files E (run_command E cmdA) tag (print_ignored_files self)
    (after_command cmdA w) = Ok (mA, aA, dA, oA) wA ->
  get_modified_and_added_files E self tag w = Ok (mA, aA, oA) wA
  /\ exists tr, trace wA = trace w ++ EvRunCommand cmdA :: tr
                /\ forallb no_git_event tr = true.
Proof.
  intros Hci cmdA HA. split.
  - unfold after_command in HA. subst cmdA.
    unfold get_modified_and_added_files, run_cmd, bind, emit, ret. cbv zeta beta.
    rewrite HA. rewrite Hci. reflexivity.
  - destruct (pass_classification E (run_command E cmdA) tag (print_ignored_files self))
      as (tr & o & Hruns & Hev & _).
    exists tr. split.
    + pose proof (runs_final _ _ _ (after_command cmdA w) Hruns) as Hfin.
      rewrite HA in Hfin. simpl in Hfin. rewrite Hfin. simpl.
      now rewrite <- app_assoc.
    + apply (forallb_weaken classification_event); [|exact Hev].
      exact classification_is_no_git.
Qed.

Lemma ci_mode_uses_one_diff_witness :
  exists modified added old_format w',
    get_modified_and_added_files Sample.env Sample.on_master "origin/master" Sample.start
    = Ok (modified, added, old_format) w'
    /\ exists tr,
         trace w'
         = EvRunCommand "git diff --name-status origin/master...refs/heads/master" :: tr
         /\ forallb no_git_event tr = true.
Proof.
  epose proof (ci_mode_uses_one_diff Sample.env Sample.on_master "origin/master"
                 Sample.start) as Hci.
  cbv zeta in Hci.
  edestruct Hci as [Hrun Htrace];
    [reflexivity | apply (ok_eta4 (∅, ∅, ∅, ∅)); vm_compute; reflexivity |].
  do 4 eexists. split; [exact Hrun|]. exact Htrace.
Defined.

(** ** Further properties of the validation passes *)

(** A loop whose body either returns or raises [e], as [bad] tells, raises
    [e] exactly when some element is bad. *)
Lemma for_each_outcome {A} (body : A -> M unit) (bad : A -> bool) (e : exn) l :
  (forall x w, exists w1, body x w = if bad x then Raise e w1 else Ok tt w1) ->
  forall w, exists w',
    for_each l body w = if existsb bad l then Raise e w' else Ok tt w'.
Proof.
  intros Hbody. induction l as [|x l IH]; intros w; simpl.
  - now exists w.
  - unfold bind. destruct (Hbody x w) as [w1 ->].
    destruct (bad x); simpl; [now exists w1|apply IH].
Qed.

Lemma added_file_outcome E self p w :
  exists w1,
    validate_added_file E self p w
    = if re_match E (TEST_PLAYBOOK_REGEX E) p && negb (validate_conf_json self)
      then Raise AttributeError w1 else Ok tt w1.
Proof.
  unfold validate_added_file, require, call_check, fail_unless, print, bind, emit, ret,
    raise, set_valid.
  destruct (re_match E (TEST_PLAYBOOK_REGEX E) p), (validate_conf_json self); simpl.
  all: repeat match goal with
    | |- context [if ?c then _ else _] => destruct c
    end; simpl; eexists; reflexivity.
Qed.

(** X10: [validate_added_files] reaches for [self.conf_json_validator]
    when an added file is a test playbook, and [__init__] creates that
    attribute only when [validate_conf_json] is on: with the flag off the
    pass raises [AttributeError] exactly when the added set holds a test
    playbook, and returns otherwise. *)
Theorem added_test_playbook_needs_conf_json (E : Env) (self : files_validator)
    (added : gset string) (w : world) :
  validate_conf_json self = false ->
  ((exists p, p ∈ added /\ re_match E (TEST_PLAYBOOK_REGEX E) p = true) ->
   exists w', validate_added_files E self added w = Raise AttributeError w')
  /\ ((forall p, p ∈ added -> re_match E (TEST_PLAYBOOK_REGEX E) p = false) ->
      exists w', validate_added_files E self added w = Ok tt w').
Proof.
  intros Hconf.
  destruct (for_each_outcome (validate_added_file E self)
              (fun p => re_match E (TEST_PLAYBOOK_REGEX E) p && negb (validate_conf_json self))
              AttributeError (elements added) (added_file_outcome E self) w)
    as [w' Hrun].
  unfold validate_added_files. rewrite Hrun, Hconf. split.
  - intros (p & Hp & Htest). exists w'.
    assert (Hex : existsb (fun p => re_match E (TEST_PLAYBOOK_REGEX E) p && negb false)
                    (elements added) = true).
    { apply existsb_exists. exists p. split.
      - now apply list_elem_of_In, elem_of_elements.
      - now rewrite Htest. }
    now rewrite Hex.
  - intros Hnone. exists w'.
    assert (Hex : existsb (fun p => re_match E (TEST_PLAYBOOK_REGEX E) p && negb false)
                    (elements added) = false).
    { apply not_true_is_false. intros H. apply existsb_exists in H as (p & Hp & Htest).
      apply list_elem_of_In, elem_of_elements in Hp.
      rewrite (Hnone p Hp) in Htest. discriminate. }
    now rewrite Hex.
Qed.

Lemma added_test_playbook_needs_conf_json_witness :
  exists w',
    validate_added_files Sample.env
      (FilesValidator "feature" true "origin/master" true false false false false)
      {["TestPlaybooks/playbook-Foo.yml"]} Sample.start
    = Raise AttributeError w'.
Proof.
  apply (added_test_playbook_needs_conf_json Sample.env
           (FilesValidator "feature" true "origin/master" true false false false false)
           {["TestPlaybooks/playbook-Foo.yml"]} Sample.start eq_refl).
  exists "TestPlaybooks/playbook-Foo.yml". split; [|reflexivity].
  now apply elem_of_singleton.
Defined.

(** X11: in [validate_added_files] the arm for integrations also takes every
    path that matches [IMAGE_REGEX], so the later image arm is never
    reached: an added image that is no test playbook gets, besides the
    structure check, the image check, the description check and the
    integration validity check, in this order (id-set mode off). *)
Theorem added_image_validated_as_integration (E : Env) (self : files_validator)
    (p : string) (w : world) :
  validate_id_set self = false ->
  re_match E (TEST_PLAYBOOK_REGEX E) p = false ->
  re_match E (IMAGE_REGEX E) p = true ->
  exists tr,
    validate_added_files E self {[p]} w
    = Ok tt (World (replay (is_valid w) tr) (trace w ++ tr))
    /\ map (fun ca => (fst ca, ca_path (snd ca))) (checks_of tr)
       = [(StructureIsFileValid, p); (ImageIsValid, p); (DescriptionIsValid, p);
          (IntegrationIsValid, p)].
Proof.
  intros Hid Htest Himage.
  assert (Hstrict : pass true lowering (validate_added_file E self p)).
  { unfold validate_added_file. rewrite Hid, Htest, Himage, !orb_true_r. pass_auto. }
  destruct (pass_own_trace _ _ Hstrict) as [Hruns _].
  set (tr := trace (final_world (validate_added_file E self p (World true [])))) in *.
  exists tr. split.
  - unfold validate_added_files. rewrite elements_singleton. simpl for_each.
    unfold bind. rewrite Hruns. simpl. reflexivity.
  - subst tr. unfold validate_added_file. rewrite Hid, Htest, Himage, !orb_true_r.
    unfold require, call_check, fail_unless, print, bind, emit, ret, set_valid. simpl.
    repeat match goal with
      | |- context [run_check E ?c ?a] => destruct (run_check E c a)
      end; reflexivity.
Qed.

Lemma added_image_validated_as_integration_witness :
  exists tr,
    validate_added_files Sample.env Sample.on_feature {["Integrations/Foo/Foo_image.png"]}
      Sample.start
    = Ok tt (World (replay true tr) tr)
    /\ map (fun ca => (fst ca, ca_path (snd ca))) (checks_of tr)
       = [(StructureIsFileValid, "Integrations/Foo/Foo_image.png");
          (ImageIsValid, "Integrations/Foo/Foo_image.png");
          (DescriptionIsValid, "Integrations/Foo/Foo_image.png");
          (IntegrationIsValid, "Integrations/Foo/Foo_image.png")].
Proof.
  apply (added_image_validated_as_integration Sample.env Sample.on_feature
           "Integrations/Foo/Foo_image.png" Sample.start); reflexivity.
Defined.

Lemma modified_file_trace_head E self e :
  checked_type E (entry_path e) None = true ->
  exists a rest,
    modified_file_trace E self e
    = EvPrint ("Validating " +:+ entry_path e) :: EvCheck StructureIsFileValid a :: rest
    /\ ca_path a = entry_path e.
Proof.
  intros Hct.
  unfold modified_file_trace, validate_modified_file, require_backward, require,
    call_check, fail_unless, print, print_warning, bind, emit, ret, set_valid.
  rewrite Hct. simpl.
  repeat match goal with
    | |- context [if ?c then _ else _] => destruct c
    end; simpl; do 2 eexists; split; reflexivity.
Qed.

Lemma modified_file_trace_print E self e :
  In (EvPrint ("Validating " +:+ entry_path e)) (modified_file_trace E self e).
Proof.
  unfold modified_file_trace, validate_modified_file, require_backward, require,
    call_check, fail_unless, print, print_warning, bind, emit, ret, set_valid.
  simpl.
  repeat match goal with
    | |- context [if ?c then _ else _] => destruct c
    end; simpl; now left.
Qed.

(** X12: [validate_modified_files] never stops at a failure.  It returns
    normally, it announces every element of the set and calls the structure
    check on every element that is a content file, whatever the checks before
    it said; the verdict after it is the verdict before it and-ed with the
    verdicts of all the elements. *)
Theorem modified_files_all_checked (E : Env) (self : files_validator)
    (modified : gset entry) (w : world) :
  exists tr,
    validate_modified_files E self modified w
    = Ok tt (World (replay (is_valid w) tr) (trace w ++ tr))
    /\ (forall e, e ∈ modified -> In (EvPrint ("Validating " +:+ entry_path e)) tr)
    /\ (forall e, e ∈ modified -> checked_type E (entry_path e) None = true ->
        exists a, In (EvCheck StructureIsFileValid a) tr /\ ca_path a = entry_path e)
    /\ replay (is_valid w) tr
       = is_valid w
         && forallb (fun e => negb (fails_modified_validation E self e))
              (elements modified).
Proof.
  exists (flat_map (modified_file_trace E self) (elements modified)).
  pose proof (runs_validate_modified_files E self modified) as Hruns.
  split; [apply Hruns|]. split; [|split].
  - intros e He. apply in_flat_map. exists e. split.
    + now apply list_elem_of_In, elem_of_elements.
    + apply modified_file_trace_print.
  - intros e He Hct.
    destruct (modified_file_trace_head E self e Hct) as (a & rest & Htr & Hpath).
    exists a. split; [|exact Hpath].
    apply in_flat_map. exists e. split.
    + now apply list_elem_of_In, elem_of_elements.
    + rewrite Htr. right. now left.
  - destruct (validate_modified_files_verdict E self modified w) as (w' & Hrun & Hv).
    rewrite Hruns in Hrun. injection Hrun as <-. exact Hv.
Qed.

Lemma pass_no_backward E self e :
  is_backward_check self = false ->
  pass true no_backward_event (validate_modified_file E self e).
Proof.
  intros Hbc. destruct self as [bn ug pv bc ci pif cj ids]. simpl in Hbc. subst bc.
  unfold validate_modified_file, require_backward, require, call_check, fail_unless,
    print, print_warning.
  cbn [is_backward_check validate_id_set use_git branch_name prev_ver].
  pass_auto.
Qed.

(** X13: with [is_backward_check] off, [validate_modified_files] calls no
    backward-compatibility check: not the integration's, not the script's and
    not the incident field's. *)
Theorem backward_checks_need_flag (E : Env) (self : files_validator)
    (modified : gset entry) (w : world) :
  is_backward_check self = false ->
  exists tr,
    validate_modified_files E self modified w
    = Ok tt (World (replay (is_valid w) tr) (trace w ++ tr))
    /\ forall c a, In (EvCheck c a) tr ->
                   c <> IntegrationIsBackwardCompatible
                   /\ c <> ScriptIsBackwardCompatible
                   /\ c <> IncidentFieldIsBackwardCompatible.
Proof.
  intros Hbc.
  assert (Hpass : pass true no_backward_event (validate_modified_files E self modified)).
  { unfold validate_modified_files. apply pass_for_each. intros e.
    now apply pass_no_backward. }
  destruct Hpass as (tr & o & Hruns & Hev & Hstrict).
  destruct o as [e|[]]; [specialize (Hstrict eq_refl); discriminate|].
  exists tr. split; [apply Hruns|].
  intros c a Hin. rewrite forallb_forall in Hev. specialize (Hev _ Hin).
  destruct c; simpl in Hev; try discriminate; repeat split; discriminate.
Qed.

Lemma backward_checks_need_flag_witness :
  exists tr,
    validate_modified_files Sample.env
      (FilesValidator "feature" true "origin/master" false false false true false)
      {[EPath "Integrations/Foo/Foo.yml"]} Sample.start
    = Ok tt (World (replay true tr) tr)
    /\ forall c a, In (EvCheck c a) tr ->
                   c <> IntegrationIsBackwardCompatible
                   /\ c <> ScriptIsBackwardCompatible
                   /\ c <> IncidentFieldIsBackwardCompatible.
Proof.
  apply (backward_checks_need_flag Sample.env
           (FilesValidator "feature" true "origin/master" false false false true false)
           {[EPath "Integrations/Foo/Foo.yml"]} Sample.start eq_refl).
Defined.

(** X14: called without [no_error], the previous-version check changes the
    verdict only through failing files: when the diff collection returns and
    no file of its modified set fails the modified-file validation, the call
    returns with the verdict it started with, true or false. *)
Theorem previous_version_clean_diff (E : Env) (self : files_validator) (w : world)
    (modified : gset entry) (added old_format : gset string) (w1 : world) :
  PyStr.truthy (prev_ver self) = true ->
  prev_ver self <> "master" ->
  get_modified_and_added_files E self (prev_ver self)
    (World (is_valid w)
       (trace w ++ [EvPrintColor ("Starting validation against " +:+ prev_ver self)]))
  = Ok (modified, added, old_format) w1 ->
  (forall e, e ∈ modified -> fails_modified_validation E self e = false) ->
  exists w', validate_against_previous_version E self false w = Ok tt w'
             /\ is_valid w' = is_valid w.
Proof.
  intros Ht Hne Hdiff Hclean.
  pose proof (previous_version_guard_true self Ht Hne) as Hguard.
  destruct (pass_get_modified_and_added_files E self (prev_ver self))
    as (tr & o & Hruns & Hquiet & _).
  assert (Hw1 : is_valid w1 = is_valid w).
  { rewrite Hruns in Hdiff. destruct o; simpl in Hdiff; [discriminate|].
    injection Hdiff as _ <-. simpl. now rewrite (replay_no_assign _ _ Hquiet). }
  destruct (previous_version_tail E self modified false w1) as (w' & Hrun & Hv).
  exists w'. split.
  - unfold validate_against_previous_version. rewrite Hguard.
    unfold print_color. rewrite bind_emit. unfold bind at 1. rewrite Hdiff. exact Hrun.
  - rewrite Hv, Hw1.
    assert (Hall : forallb (fun e => negb (fails_modified_validation E self e))
                     (elements modified) = true).
    { apply forallb_forall. intros e He.
      apply list_elem_of_In, elem_of_elements in He.
      now rewrite (Hclean e He). }
    rewrite Hall. apply andb_true_r.
Qed.

Lemma previous_version_clean_diff_witness :
  exists w',
    validate_against_previous_version Sample.env Sample.on_schema_branch false
      (World false [])
    = Ok tt w'
    /\ is_valid w' = false.
Proof.
  eapply (previous_version_clean_diff Sample.env Sample.on_schema_branch (World false []));
    [reflexivity | discriminate
    | apply (ok_eta3 (∅, ∅, ∅)); vm_compute; reflexivity |].
  intros e He. apply elem_of_elements in He.
  replace (elements _) with [EPath "Tests/schemas/integration.yml"] in He
    by (vm_compute; reflexivity).
  apply list_elem_of_In in He. destruct He as [<-|[]].
  vm_compute. reflexivity.
Defined.

(** ** Further properties of the full sweep and of the whole run *)

Lemma pass_returns P (m : M unit) :
  pass true P m -> forall w, exists w1, m w = Ok tt w1.
Proof.
  intros (tr & o & Hruns & _ & Hs) w.
  destruct o as [e|[]]; [specialize (Hs eq_refl); discriminate|].
  eexists. apply Hruns.
Qed.

Lemma bind_returns {B} (m : M unit) (k : unit -> M B) (R : world -> result B) :
  (forall w, exists w1, m w = Ok tt w1) ->
  (forall w, exists w1, k tt w = R w1) ->
  forall w, exists w1, bind m k w = R w1.
Proof.
  intros Hm Hk w. unfold bind. destruct (Hm w) as [w1 ->]. apply Hk.
Qed.

Lemma walked_files_return E (self : files_validator) (root : string) files :
  forall w, exists w1,
    for_each files (fun file_name =>
      let file_path := PyStr.path_join root file_name in
      if PyStr.startswith file_name "." then ret tt
      else
        print ("Validating " +:+ file_name) ;;;
        require E StructureIsValidScheme
          (structure_args file_path (use_git self) false false)) w
    = Ok tt w1.
Proof.
  apply (pass_returns lowering). apply pass_for_each. intros file_name.
  cbv zeta. pass_auto.
Qed.

Lemma walked_outcome E self directory triple :
  forall w, exists w1,
    validate_walked E self directory triple w
    = if package_without_yml E triple then Raise IndexError w1 else Ok tt w1.
Proof.
  destruct triple as [[root dirs] files]. intros w.
  unfold validate_walked, package_without_yml.
  destruct (str_in root (DIR_LIST E)); simpl; [|now exists w].
  apply bind_returns; [apply (pass_returns lowering); pass_auto|].
  apply bind_returns; [apply walked_files_return|].
  destruct (str_in root (PACKAGE_SUPPORTING_DIRECTORIES E)); simpl;
    [|intros w0; now exists w0].
  apply for_each_outcome. intros inner_dir w0.
  unfold bind, emit.
  destruct (glob E _) as [|file_path others]; [eexists; reflexivity|].
  apply (pass_returns lowering). pass_auto.
Qed.

(** X15: the full sweep can end in one exception of its own, and it is the
    [IndexError] of [glob.glob(...)[0]]: [validate_all_files] raises it
    exactly when it walks a directory of [DIR_LIST] and of
    [PACKAGE_SUPPORTING_DIRECTORIES] that has a sub-directory without a
    [.yml] file; otherwise it returns normally. *)
Theorem sweep_raises_on_empty_package (E : Env) (self : files_validator) (w : world) :
  exists w',
    validate_all_files E self w
    = if sweep_meets_empty_package E then Raise IndexError w' else Ok tt w'.
Proof.
  unfold validate_all_files, sweep_meets_empty_package.
  apply for_each_outcome. intros regex w0. cbv zeta.
  apply bind_returns with
    (R := fun w1 =>
            if existsb (package_without_yml E) (os_walk E (PyStr.before_first ".*" regex))
            then Raise IndexError w1 else Ok tt w1).
  - intros w1. eexists. reflexivity.
  - apply for_each_outcome. apply walked_outcome.
Qed.

Lemma pass_require_any E s (P : event -> bool) c a :
  P (EvCheck c a) = true -> P (EvSetValid false) = true -> pass s P (require E c a).
Proof.
  intros Hc Hs. unfold require, call_check, fail_unless.
  apply pass_bind.
  - apply pass_bind; [now apply pass_emit|intros _; apply pass_ret].
  - intros [|]; [apply pass_ret|now apply pass_set_valid].
Qed.

Lemma sweep_is_no_git ev : sweep_event ev = true -> no_git_event ev = true.
Proof. destruct ev; simpl; intros H; try reflexivity; discriminate. Qed.

Lemma final_world_get_valid {A} (m : M A) w :
  final_world (bind m (fun _ => get_valid) w) = final_world (m w).
Proof. unfold bind, get_valid. now destruct (m w). Qed.

(** X16: without a branch name (git not in use) [is_valid_structure] is the
    configuration check followed by the full sweep, and it runs no git
    command at all: neither the changeset nor the previous version is
    looked at. *)
Theorem no_branch_no_git (E : Env) (self : files_validator) (w : world) :
  branch_name self = "" ->
  is_valid_structure E self w
  = ((conf_json_step E self ;;; validate_all_files E self) ;;; get_valid) w
  /\ exists tr,
       trace (final_world (is_valid_structure E self w)) = trace w ++ tr
       /\ forallb no_git_event tr = true.
Proof.
  intros Hb.
  assert (Heq : is_valid_structure E self w
                = ((conf_json_step E self ;;; validate_all_files E self) ;;; get_valid) w).
  { unfold is_valid_structure, conf_json_step. rewrite Hb. simpl PyStr.truthy.
    cbv iota. symmetry. apply bind_bind. }
  split; [exact Heq|].
  rewrite Heq, final_world_get_valid.
  assert (Hpass : pass false no_git_event
                    (conf_json_step E self ;;; validate_all_files E self)).
  { apply pass_bind.
    - unfold conf_json_step. destruct (validate_conf_json self);
        [now apply pass_require_any|apply pass_ret].
    - intros _. apply (pass_events false sweep_event); [exact sweep_is_no_git|].
      apply pass_validate_all_files. }
  destruct Hpass as (tr & o & Hruns & Hev & _).
  exists tr. now rewrite (runs_final _ _ _ w Hruns).
Qed.

Lemma no_branch_no_git_witness :
  exists tr,
    trace (final_world
             (is_valid_structure Sample.env
                (FilesValidator "" false "origin/master" true false false true false)
                Sample.start))
    = tr
    /\ forallb no_git_event tr = true.
Proof.
  destruct (no_branch_no_git Sample.env
              (FilesValidator "" false "origin/master" true false false true false)
              Sample.start eq_refl) as [_ (tr & Htr & Hev)].
  exists tr. split; [exact Htr|exact Hev].
Defined.

Lemma no_error_check_returns E self w w2 :
  validate_against_previous_version E self true w = Ok tt w2 -> is_valid w2 = is_valid w.
Proof.
  intros H. pose proof (no_error_restores E self w) as Hkeep.
  now rewrite H in Hkeep.
Qed.

(** X17: on the trunk and on release branches ([master], [19.x], [20.x])
    the previous-version pass is advisory for the whole run: whenever
    [is_valid_structure] returns, it returns the verdict that the
    configuration check and the full sweep alone give. *)
Theorem trunk_verdict_ignores_advisory_pass (E : Env) (self : files_validator)
    (w : world) (b : bool) (w' : world) :
  PyStr.truthy (branch_name self) = true ->
  on_trunk_or_release self = true ->
  is_valid_structure E self w = Ok b w' ->
  exists w'',
    ((conf_json_step E self ;;; validate_all_files E self) ;;; get_valid) w = Ok b w''.
Proof.
  intros Hbranch Htrunk Hrun.
  unfold on_trunk_or_release in Htrunk. apply negb_true_iff in Htrunk.
  unfold is_valid_structure in Hrun. rewrite Hbranch, Htrunk in Hrun.
  fold (conf_json_step E self) in Hrun.
  destruct (pass_validate_all_files E self) as (tr & o & Hsweep & _ & _).
  unfold bind in *.
  destruct (conf_json_step E self w) as [[] w1|e w1]; [|discriminate].
  destruct (validate_against_previous_version E self true w1) as [[] w2|e w2] eqn:Hadv;
    [|discriminate].
  apply no_error_check_returns in Hadv.
  rewrite Hsweep in Hrun. rewrite Hsweep.
  destruct o as [e|[]]; simpl in *; [discriminate|].
  unfold get_valid in *. injection Hrun as <- _. simpl.
  rewrite Hadv. eexists. reflexivity.
Qed.

Lemma trunk_verdict_ignores_advisory_pass_witness :
  exists w'',
    ((conf_json_step Sample.env Sample.on_master ;;;
      validate_all_files Sample.env Sample.on_master) ;;; get_valid) Sample.start
    = Ok true w''.
Proof.
  eapply (trunk_verdict_ignores_advisory_pass Sample.env Sample.on_master Sample.start);
    [reflexivity | reflexivity |].
  apply (ok_eta false). vm_compute. reflexivity.
Defined.

(** X18: on a feature branch the advisory pass cannot repair the verdict:
    whenever [is_valid_structure] returns, the configuration check and
    [validate_committed_files] have returned and the value it returns is
    the verdict they left. *)
Theorem feature_verdict_is_changeset_verdict (E : Env) (self : files_validator)
    (w : world) (b : bool) (w' : world) :
  PyStr.truthy (branch_name self) = true ->
  on_trunk_or_release self = false ->
  is_valid_structure E self w = Ok b w' ->
  exists w1,
    (conf_json_step E self ;;; validate_committed_files E self) w = Ok tt w1
    /\ b = is_valid w1.
Proof.
  intros Hbranch Hfeature Hrun.
  unfold on_trunk_or_release in Hfeature. apply negb_false_iff in Hfeature.
  unfold is_valid_structure in Hrun. rewrite Hbranch, Hfeature in Hrun.
  fold (conf_json_step E self) in Hrun.
  unfold bind in *.
  destruct (conf_json_step E self w) as [[] w0|e w0]; [|discriminate].
  destruct (validate_committed_files E self w0) as [[] w1|e w1]; [|discriminate].
  destruct (validate_against_previous_version E self true w1) as [[] w2|e w2] eqn:Hadv;
    [|discriminate].
  apply no_error_check_returns in Hadv.
  unfold get_valid in Hrun. injection Hrun as <- _.
  exists w1. split; [reflexivity|exact Hadv].
Qed.

Lemma feature_verdict_is_changeset_verdict_witness :
  exists w1,
    (conf_json_step Sample.env Sample.on_feature ;;;
     validate_committed_files Sample.env Sample.on_feature) Sample.start
    = Ok tt w1
    /\ false = is_valid w1.
Proof.
  eapply (feature_verdict_is_changeset_verdict Sample.env Sample.on_feature Sample.start);
    [reflexivity | reflexivity |].
  apply (ok_eta true). vm_compute. reflexivity.
Defined.

(** X19: what [__init__] establishes.  When it returns, the verdict is true
    whatever it was, [prev_ver] is not empty (an empty or missing value has
    become [origin/master]), the flags are the arguments, and without git the
    branch name is empty and no command was run.  With git, it raises
    [AttributeError] when the output of [git branch] marks no current
    branch, before the verdict is touched. *)
Theorem init_establishes (E : Env) (bc : bool) (pv : option string)
    (ug ci pif cj ids : bool) (w0 : world) :
  (forall self w1,
     init E bc pv ug ci pif cj ids w0 = Ok self w1 ->
     is_valid w1 = true
     /\ PyStr.truthy (prev_ver self) = true
     /\ (use_git self, is_backward_check self, is_circle self, print_ignored_files self,
         validate_conf_json self, validate_id_set self) = (ug, bc, ci, pif, cj, ids)
     /\ (ug = false -> branch_name self = "" /\ trace w1 = trace w0 ++ [EvSetValid true]))
  /\ (ug = true ->
      re_search_group1 E branch_name_regex (run_command E "git branch") = None ->
      init E bc pv ug ci pif cj ids w0
      = Raise AttributeError (after_command "git branch" w0)).
Proof.
  assert (Hprev : PyStr.truthy
                    match pv with
                    | Some v => if PyStr.truthy v then v else "origin/master"
                    | None => "origin/master"
                    end = true).
  { destruct pv as [v|]; [|reflexivity].
    destruct (PyStr.truthy v) eqn:Hv; [exact Hv|reflexivity]. }
  split.
  - intros self w1 Hinit. unfold init in Hinit.
    destruct ug.
    + unfold bind, run_cmd, emit, ret, raise, set_valid in Hinit. simpl in Hinit.
      destruct (re_search_group1 E _ _); [|discriminate].
      injection Hinit as <- <-. simpl. repeat split; try exact Hprev; discriminate.
    + unfold bind, ret, set_valid in Hinit. simpl in Hinit.
      injection Hinit as <- <-. simpl. repeat split; exact Hprev.
  - intros -> Hnone. unfold init, bind, run_cmd, emit, ret, raise. simpl.
    now rewrite Hnone.
Qed.

(** ** Every check counts *)

Lemma audited_ret E : audited E (ret tt).
Proof. exists []. split; [apply runs_ret|]. now split. Qed.

Lemma audited_emit E ev :
  is_assign ev = false -> match ev with EvCheck _ _ => False | _ => True end ->
  audited E (emit ev).
Proof.
  intros Ha Hc. exists [ev]. split; [now apply runs_emit|].
  destruct ev; simpl in *; try discriminate; try contradiction; now split.
Qed.

Lemma audited_require E c a : audited E (require E c a).
Proof.
  unfold require, call_check, fail_unless.
  destruct (run_check E c a) eqn:Hok.
  - exists [EvCheck c a]. split; [|simpl; rewrite Hok; now split].
    intros [v t]. reflexivity.
  - exists [EvCheck c a; EvSetValid false]. split; [|simpl; rewrite Hok; now split].
    intros [v t]. unfold bind, emit, ret, set_valid. simpl.
    now rewrite <- app_assoc.
Qed.

Lemma audited_bind E (m k : M unit) :
  audited E m -> audited E k -> audited E (bind m (fun _ => k)).
Proof.
  intros (tr1 & Hr1 & Hl1 & Ha1) (tr2 & Hr2 & Hl2 & Ha2).
  exists (tr1 ++ tr2). split; [now apply runs_bind_ok with tt|]. split.
  - rewrite forallb_app. now rewrite Hl1, Hl2.
  - rewrite existsb_app, forallb_app, Ha1, Ha2. now rewrite negb_andb.
Qed.

Lemma audited_for_each E {A} (l : list A) (body : A -> M unit) :
  (forall x, audited E (body x)) -> audited E (for_each l body).
Proof.
  intros Hb. induction l as [|x l IH]; simpl; [apply audited_ret|].
  now apply audited_bind.
Qed.

Ltac audited_step :=
  match goal with
  | |- audited _ (ret tt) => apply audited_ret
  | |- audited _ (require _ _ _) => apply audited_require
  | |- audited _ (require_backward _ _ _ _) => unfold require_backward
  | |- audited _ (print _) => apply audited_emit; [reflexivity|exact I]
  | |- audited _ (print_warning _) => apply audited_emit; [reflexivity|exact I]
  | |- audited _ (emit _) => apply audited_emit; [reflexivity|exact I]
  | |- audited _ (bind _ _) => apply audited_bind
  | |- audited _ (if ?c then _ else _) => destruct c
  | |- audited _ (let _ := _ in _) => cbv zeta
  end.

Lemma audited_validate_modified_file E self e : audited E (validate_modified_file E self e).
Proof. unfold validate_modified_file. cbv zeta. repeat audited_step. Qed.

Lemma checks_all_ok E tr :
  forallb (check_event_ok E) tr
  = forallb (fun ca => run_check E (fst ca) (snd ca)) (checks_of tr).
Proof.
  unfold checks_of. induction tr as [|ev tr IH]; [reflexivity|].
  simpl. rewrite forallb_app, <- IH.
  destruct ev; simpl; try reflexivity. now rewrite andb_true_r.
Qed.

(** X20: in [validate_modified_files] every check that is called counts and
    nothing else does: the verdict after the pass is the verdict before it
    and-ed with the answers of all the validator checks the pass called. *)
Theorem modified_verdict_is_conjunction_of_checks (E : Env) (self : files_validator)
    (modified : gset entry) (w : world) :
  exists tr,
    validate_modified_files E self modified w
    = Ok tt (World (replay (is_valid w) tr) (trace w ++ tr))
    /\ replay (is_valid w) tr
       = is_valid w
         && forallb (fun ca => run_check E (fst ca) (snd ca)) (checks_of tr).
Proof.
  assert (Haud : audited E (validate_modified_files E self modified)).
  { unfold validate_modified_files. apply audited_for_each.
    intros e. apply audited_validate_modified_file. }
  destruct Haud as (tr & Hruns & Hlow & Hacc).
  exists tr. split; [apply Hruns|].
  rewrite (replay_lowering _ _ Hlow), Hacc, negb_involutive.
  now rewrite checks_all_ok.
Qed.
